(** * VoxelRenderResources: the shader build of a voxel primitive

    A shallow embedding of
    [packages/engine/Source/Scene/VoxelRenderResources.js] (Cesium 1.110.1)
    and the properties of the shader program it assembles: which defines,
    uniforms and source fragments reach the fragment stage, in which order,
    and how the intersection slots are numbered. *)

From stdpp Require Import gmap strings list pretty.

Local Open Scope Z_scope.

(** ** JavaScript values and outcomes *)

(** The values the constructor hands to [addDefine]: [undefined], booleans,
    numbers and strings. *)
Inductive JsValue :=
| JsUndefined
| JsBoolean (b : bool)
| JsNumber (n : Z)
| JsString (s : string).

#[global] Instance JsValue_eq_dec : EqDecision JsValue.
Proof. solve_decision. Defined.

(** What a call ends with: it returns, or a JavaScript error is thrown. *)
Inductive JsError :=
| TypeError (message : string).

Inductive outcome (A : Type) :=
| Returns (a : A)
| Throws (e : JsError).
Arguments Returns {A} a.
Arguments Throws {A} e.

Definition returned {A} (o : outcome A) : bool :=
  match o with Returns _ => true | Throws _ => false end.

(** A function object, known by its reference: the accessors of a uniform map
    are compared by identity. *)
Inductive Accessor :=
| FunctionRef (ref : nat).

#[global] Instance Accessor_eq_dec : EqDecision Accessor.
Proof. solve_decision. Defined.

(** ** Collaborators that the constructor imports *)

(** Modelled from the spec: [defined] (Core/defined.js is not among the
    sources). It tells the absent marker from a value that is present; the
    source relies on it as "if value is undefined, don't define it". *)
Definition defined (value : JsValue) : bool :=
  match value with JsUndefined => false | _ => true end.

(** Modelled from the spec: [combine] (Core/combine.js is not among the
    sources) merges two uniform maps, each a "mapping from uniform name to
    a zero-argument accessor function", into one map that binds every name
    either of them binds. "Which side wins on key collision" is what the
    spec's design notes leave open; the helper keeps the value of its first
    argument, so a name that [object1] binds keeps the accessor it has
    there. (stdpp's union keeps the left operand's entry.) *)
Definition combine (object1 object2 : gmap string Accessor) : gmap string Accessor :=
  object1 ∪ object2.

Module Cartesian3.
(** Modelled from the spec: [Cartesian3] (Core/Cartesian3.js is not among
    the sources), the padding vectors: three components, the null vector
    [ZERO], and [equals], which compares componentwise. *)
Record t := { x : Z; y : Z; z : Z }.

Definition ZERO : t := {| x := 0; y := 0; z := 0 |}.

Definition equals (left right : t) : bool :=
  (x left =? x right) && (y left =? y right) && (z left =? z right).
End Cartesian3.

Module ShaderDestination.
(** Modelled from the spec: [ShaderDestination]
    (Renderer/ShaderDestination.js is not among the sources); "defines and
    uniforms are stage-scoped (vertex vs fragment)". *)
Inductive t := VERTEX | FRAGMENT | BOTH.

Definition includesVertexShader (destination : t) : bool :=
  match destination with VERTEX | BOTH => true | FRAGMENT => false end.

Definition includesFragmentShader (destination : t) : bool :=
  match destination with FRAGMENT | BOTH => true | VERTEX => false end.
End ShaderDestination.

(** The shader sources imported from ../Shaders/Voxels/: texts produced from
    the GLSL files when the library is built. The constructor only passes
    them on, so they are parameters of the development. *)
Class VoxelShaders := {
  VoxelFS : string;
  VoxelVS : string;
  IntersectionUtils : string;
  IntersectDepth : string;
  IntersectClippingPlanes : string;
  IntersectBox : string;
  IntersectCylinder : string;
  IntersectEllipsoid : string;
  Intersection : string;
  convertUvToBox : string;
  convertUvToCylinder : string;
  convertUvToEllipsoid : string;
  Octree : string;
  Megatexture : string;
}.

(** ** The shader builder *)

(** Modelled from the spec: [ShaderBuilder] (Renderer/ShaderBuilder.js is
    not among the sources). "Two independent accumulators (vertex,
    fragment), each holding" the uniform declarations, the defines (a name
    with an optional value: "absent value ⇒ define with no replacement
    text; present value ⇒ textual substitution") and "an ordered sequence
    of source-text fragments"; "insertion order of defines and fragments
    is semantically significant and must be preserved exactly as
    produced". Every call is recorded in the accumulator of the stage it is
    addressed to, in call order; what the builder makes of a name that is
    declared twice is not part of this record. *)
Record StageAccumulator := {
  uniforms : list (string * string);
  defines : list (string * option JsValue);
  lines : list string;
}.

Record ShaderBuilder := {
  vertex : StageAccumulator;
  fragment : StageAccumulator;
}.

Definition emptyStage : StageAccumulator :=
  {| uniforms := []; defines := []; lines := [] |}.

(** [new ShaderBuilder()] *)
Definition newShaderBuilder : ShaderBuilder :=
  {| vertex := emptyStage; fragment := emptyStage |}.

(** The value a define is recorded with: [undefined] is the absent value. *)
Definition defineValue (value : JsValue) : option JsValue :=
  if defined value then Some value else None.

Definition pushUniform (type identifier : string) (stage : StageAccumulator)
  : StageAccumulator :=
  {| uniforms := uniforms stage ++ [(type, identifier)];
     defines := defines stage;
     lines := lines stage |}.

Definition pushDefine (identifier : string) (value : JsValue)
  (stage : StageAccumulator) : StageAccumulator :=
  {| uniforms := uniforms stage;
     defines := defines stage ++ [(identifier, defineValue value)];
     lines := lines stage |}.

Definition pushLines (texts : list string) (stage : StageAccumulator)
  : StageAccumulator :=
  {| uniforms := uniforms stage;
     defines := defines stage;
     lines := lines stage ++ texts |}.

Definition onStages (destination : ShaderDestination.t)
  (f : StageAccumulator → StageAccumulator) (builder : ShaderBuilder)
  : ShaderBuilder :=
  {| vertex :=
       if ShaderDestination.includesVertexShader destination
       then f (vertex builder) else vertex builder;
     fragment :=
       if ShaderDestination.includesFragmentShader destination
       then f (fragment builder) else fragment builder |}.

(** ** The build monad: the builder is threaded through the calls, and a
    call may throw *)

Definition Build (A : Type) : Type := ShaderBuilder → outcome (A * ShaderBuilder).

Definition ret {A} (a : A) : Build A := λ builder, Returns (a, builder).

Definition bind {A B} (m : Build A) (k : A → Build B) : Build B :=
  λ builder,
    match m builder with
    | Returns (a, builder') => k a builder'
    | Throws e => Throws e
    end.

Declare Scope build_scope.
Delimit Scope build_scope with build.
Notation "'let*' x ':=' m 'in' k" := (bind m (λ x, k))
  (at level 10, x name, m at level 100, k at level 200) : build_scope.
Notation "m ;; k" := (bind m (λ _, k))
  (at level 100, k at level 200, right associativity) : build_scope.
Local Open Scope build_scope.

Definition throw {A} (e : JsError) : Build A := λ _, Throws e.

(** A method of the builder that returns nothing. *)
Definition update (f : ShaderBuilder → ShaderBuilder) : Build unit :=
  λ builder, Returns (tt, f builder).

(** [if (condition) { body }] *)
Definition when (condition : bool) (body : Build unit) : Build unit :=
  if condition then body else ret tt.

(** [for (const key in object) if (object.hasOwnProperty(key)) { body }]:
    the own properties of [object], in the order the loop visits them. *)
Fixpoint forIn {A} (object : list (string * A)) (body : string → A → Build unit)
  : Build unit :=
  match object with
  | [] => ret tt
  | (key, value) :: rest => body key value ;; forIn rest body
  end.

(** Reading a property of [object]: a [TypeError] when it is [undefined]. *)
Definition deref {A} (object : option A) : Build A :=
  match object with
  | Some o => ret o
  | None => throw (TypeError "Cannot read properties of undefined")
  end.

Definition addUniform (type identifier : string)
  (destination : ShaderDestination.t) : Build unit :=
  update (onStages destination (pushUniform type identifier)).

Definition addDefine (identifier : string) (value : JsValue)
  (destination : ShaderDestination.t) : Build unit :=
  update (onStages destination (pushDefine identifier value)).

Definition addVertexLines (texts : list string) : Build unit :=
  update (onStages ShaderDestination.VERTEX (pushLines texts)).

Definition addFragmentLines (texts : list string) : Build unit :=
  update (onStages ShaderDestination.FRAGMENT (pushLines texts)).

(** ** The primitive and its collaborators, as the constructor reads them *)

Module Uniform.
Record t := { type : string }.
End Uniform.

Module CustomShader.
(** [uniforms] lists the declared uniforms in the order [for .. in] visits
    them; [uniformMap] binds uniform names to accessors. *)
Record t := {
  fragmentShaderText : string;
  uniforms : list (string * Uniform.t);
  uniformMap : gmap string Accessor;
}.
End CustomShader.

Module ClippingPlaneCollection.
Record t := {
  enabled : bool;
  length : Z;
  unionClippingRegions : bool;
}.
End ClippingPlaneCollection.

Module VoxelProvider.
Record t := { shape : string }.
End VoxelProvider.

Module VoxelShape.
(** [shaderDefines] lists the own properties of the define mapping in the
    order [for .. in] visits them. *)
Record t := {
  shaderDefines : list (string * JsValue);
  shaderMaximumIntersectionsLength : Z;
}.
End VoxelShape.

Module VoxelTraversal.
Record t := { _sampleCount : Z }.
End VoxelTraversal.

Module VoxelPrimitive.
Record t := {
  _customShader : CustomShader.t;
  _uniformMap : gmap string Accessor;
  _clippingPlanes : option ClippingPlaneCollection.t;
  _depthTest : bool;
  _provider : VoxelProvider.t;
  _shape : VoxelShape.t;
  paddingBefore : Cartesian3.t;
  paddingAfter : Cartesian3.t;
  _useLogDepth : bool;
  _jitter : bool;
  _nearestSampling : bool;
  _traversal : VoxelTraversal.t;
}.

(** [primitive._uniformMap = uniformMap] *)
Definition set_uniformMap (uniformMap : gmap string Accessor) (primitive : t) : t :=
  {| _customShader := _customShader primitive;
     _uniformMap := uniformMap;
     _clippingPlanes := _clippingPlanes primitive;
     _depthTest := _depthTest primitive;
     _provider := _provider primitive;
     _shape := _shape primitive;
     paddingBefore := paddingBefore primitive;
     paddingAfter := paddingAfter primitive;
     _useLogDepth := _useLogDepth primitive;
     _jitter := _jitter primitive;
     _nearestSampling := _nearestSampling primitive;
     _traversal := _traversal primitive |}.
End VoxelPrimitive.

(** The object the constructor fills in ([this]). *)
Module RenderResources.
Record t := {
  shaderBuilder : ShaderBuilder;
  uniformMap : gmap string Accessor;
  clippingPlanes : option ClippingPlaneCollection.t;
  clippingPlanesLength : Z;
}.
End RenderResources.

(** ** The constructor *)

Section Constructor.
Context `{VoxelShaders}.

Import ShaderDestination.

(** Lines 48-65: one uniform per declared custom-shader uniform, then the
    uniform that the generated megatexture code reads from. *)
Definition addCustomShaderUniforms (customShader : CustomShader.t) : Build unit :=
  let customShaderUniforms := CustomShader.uniforms customShader in
  forIn customShaderUniforms (λ uniformName uniform,
    addUniform (Uniform.type uniform) uniformName FRAGMENT) ;;
  addUniform "sampler2D" "u_megatextureTextures[METADATA_COUNT]" FRAGMENT.

(** Lines 75-79: [defined(clippingPlanes) && clippingPlanes.enabled ?
    clippingPlanes.length : 0]; the conjunction reads [enabled] only of a
    collection that is there. *)
Definition getClippingPlanesLength
  (clippingPlanes : option ClippingPlaneCollection.t) : Z :=
  match clippingPlanes with
  | Some planes =>
      if ClippingPlaneCollection.enabled planes
      then ClippingPlaneCollection.length planes
      else 0
  | None => 0
  end.

(** Lines 84-93. *)
Definition addBaseLines (customShader : CustomShader.t) : Build unit :=
  addVertexLines [VoxelVS] ;;
  addFragmentLines [
    CustomShader.fragmentShaderText customShader;
    "#line 0";
    Octree;
    IntersectionUtils;
    Megatexture
  ].

(** Lines 95-114. *)
Definition addClippingPlanes (clippingPlanes : option ClippingPlaneCollection.t)
  (clippingPlanesLength : Z) : Build unit :=
  when (0 <? clippingPlanesLength) (
    addDefine "CLIPPING_PLANES" JsUndefined FRAGMENT ;;
    addDefine "CLIPPING_PLANES_COUNT" (JsNumber clippingPlanesLength) FRAGMENT ;;
    let* planes := deref clippingPlanes in
    when (ClippingPlaneCollection.unionClippingRegions planes) (
      addDefine "CLIPPING_PLANES_UNION" JsUndefined FRAGMENT) ;;
    addFragmentLines [IntersectClippingPlanes]).

(** Lines 115-122. *)
Definition addDepthTest (depthTest : bool) : Build unit :=
  when depthTest (
    addDefine "DEPTH_TEST" JsUndefined FRAGMENT ;;
    addFragmentLines [IntersectDepth]).

(** Lines 124-144: the fragments of the shape, chosen by comparing the
    provider's shape with the three names; the chain has no final [else]. *)
Definition addShapeLines (shapeType : string) : Build unit :=
  if String.eqb shapeType "BOX" then
    addDefine "SHAPE_BOX" JsUndefined FRAGMENT ;;
    addFragmentLines [convertUvToBox; IntersectBox; Intersection]
  else if String.eqb shapeType "CYLINDER" then
    addFragmentLines [IntersectCylinder; Intersection; convertUvToCylinder]
  else if String.eqb shapeType "ELLIPSOID" then
    addFragmentLines [IntersectEllipsoid; Intersection; convertUvToEllipsoid]
  else ret tt.

(** Lines 148-160. *)
Definition addShapeDefines (shape : VoxelShape.t) : Build unit :=
  let shapeDefines := VoxelShape.shaderDefines shape in
  forIn shapeDefines (λ key value,
    when (defined value) (
      let value :=
        if decide (value = JsBoolean true) then JsUndefined else value in
      addDefine key value FRAGMENT)).

(** Lines 162-190: count how many intersections the shader will do. *)
Definition countIntersections (shape : VoxelShape.t)
  (clippingPlanes : option ClippingPlaneCollection.t)
  (clippingPlanesLength : Z) (depthTest : bool) : Build unit :=
  let intersectionCount := VoxelShape.shaderMaximumIntersectionsLength shape in
  let* intersectionCount :=
    if 0 <? clippingPlanesLength then
      addDefine "CLIPPING_PLANES_INTERSECTION_INDEX"
        (JsNumber intersectionCount) FRAGMENT ;;
      if clippingPlanesLength =? 1 then ret (intersectionCount + 1)
      else
        let* planes := deref clippingPlanes in
        if ClippingPlaneCollection.unionClippingRegions planes
        then ret (intersectionCount + 2)
        else ret (intersectionCount + 1)
    else ret intersectionCount in
  let* intersectionCount :=
    if depthTest then
      addDefine "DEPTH_INTERSECTION_INDEX" (JsNumber intersectionCount) FRAGMENT ;;
      ret (intersectionCount + 1)
    else ret intersectionCount in
  addDefine "INTERSECTION_COUNT" (JsNumber intersectionCount) FRAGMENT.

(** Lines 192-224: additional fragment shader defines. *)
Definition addAdditionalDefines (primitive : VoxelPrimitive.t) : Build unit :=
  when (negb (Cartesian3.equals (VoxelPrimitive.paddingBefore primitive) Cartesian3.ZERO)
        || negb (Cartesian3.equals (VoxelPrimitive.paddingAfter primitive) Cartesian3.ZERO)) (
    addDefine "PADDING" JsUndefined FRAGMENT) ;;
  when (VoxelPrimitive._useLogDepth primitive) (
    addDefine "LOG_DEPTH_READ_ONLY" JsUndefined FRAGMENT) ;;
  when (VoxelPrimitive._jitter primitive) (
    addDefine "JITTER" JsUndefined FRAGMENT) ;;
  when (VoxelPrimitive._nearestSampling primitive) (
    addDefine "NEAREST_SAMPLING" JsUndefined FRAGMENT) ;;
  let traversal := VoxelPrimitive._traversal primitive in
  addDefine "SAMPLE_COUNT"
    (JsString (pretty (VoxelTraversal._sampleCount traversal))) FRAGMENT.

(** Everything the constructor does to the shader builder, in source
    order. [primitive] is the primitive after line 46. *)
Definition buildShader (primitive : VoxelPrimitive.t)
  (clippingPlanes : option ClippingPlaneCollection.t)
  (clippingPlanesLength : Z) : Build unit :=
  let customShader := VoxelPrimitive._customShader primitive in
  addCustomShaderUniforms customShader ;;
  addBaseLines customShader ;;
  addClippingPlanes clippingPlanes clippingPlanesLength ;;
  addDepthTest (VoxelPrimitive._depthTest primitive) ;;
  let shapeType := VoxelProvider.shape (VoxelPrimitive._provider primitive) in
  addShapeLines shapeType ;;
  addFragmentLines [VoxelFS] ;;
  let shape := VoxelPrimitive._shape primitive in
  addShapeDefines shape ;;
  countIntersections shape clippingPlanes clippingPlanesLength
    (VoxelPrimitive._depthTest primitive) ;;
  addAdditionalDefines primitive.

(** [new VoxelRenderResources(primitive)]: the primitive as the call leaves
    it, and the object that was constructed. *)
Definition VoxelRenderResources (primitive : VoxelPrimitive.t)
  : outcome (VoxelPrimitive.t * RenderResources.t) :=
  let shaderBuilder := newShaderBuilder in
  let customShader := VoxelPrimitive._customShader primitive in
  let uniformMap :=
    combine (VoxelPrimitive._uniformMap primitive)
            (CustomShader.uniformMap customShader) in
  let primitive := VoxelPrimitive.set_uniformMap uniformMap primitive in
  let clippingPlanes := VoxelPrimitive._clippingPlanes primitive in
  let clippingPlanesLength := getClippingPlanesLength clippingPlanes in
  match buildShader primitive clippingPlanes clippingPlanesLength shaderBuilder with
  | Returns (_, shaderBuilder) =>
      Returns (primitive,
               {| RenderResources.shaderBuilder := shaderBuilder;
                  RenderResources.uniformMap := uniformMap;
                  RenderResources.clippingPlanes := clippingPlanes;
                  RenderResources.clippingPlanesLength := clippingPlanesLength |})
  | Throws e => Throws e
  end.

End Constructor.

(** ** What a run adds to the builder *)

(** Every method of the builder appends, so the effect of a piece of the
    constructor on any builder is the declarations it adds. *)
Definition appendStage (stage more : StageAccumulator) : StageAccumulator :=
  {| uniforms := uniforms stage ++ uniforms more;
     defines := defines stage ++ defines more;
     lines := lines stage ++ lines more |}.

Definition appendBuilder (builder more : ShaderBuilder) : ShaderBuilder :=
  {| vertex := appendStage (vertex builder) (vertex more);
     fragment := appendStage (fragment builder) (fragment more) |}.

Definition toFragment (us : list (string * string))
  (ds : list (string * option JsValue)) (ls : list string) : ShaderBuilder :=
  {| vertex := emptyStage;
     fragment := {| uniforms := us; defines := ds; lines := ls |} |}.

Definition toVertex (ls : list string) : ShaderBuilder :=
  {| vertex := {| uniforms := []; defines := []; lines := ls |};
     fragment := emptyStage |}.

(** [m] returns [a] and adds [more], whatever the builder held before. *)
Definition Emits {A} (m : Build A) (a : A) (more : ShaderBuilder) : Prop :=
  ∀ builder, m builder = Returns (a, appendBuilder builder more).

Ltac builder_eq :=
  repeat match goal with
    | b : ShaderBuilder |- _ => destruct b as [[? ? ?] [? ? ?]]
    end;
  unfold appendBuilder, appendStage, toFragment, toVertex, newShaderBuilder,
    emptyStage, onStages, pushDefine, pushUniform, pushLines;
  cbn; rewrite ?app_nil_r, <- ?app_assoc; try reflexivity.

(** The same on a long chain of additions: call-by-need, so that no
    addition is copied. *)
Ltac flatten_builder :=
  lazy beta iota delta [appendBuilder appendStage toFragment toVertex
    newShaderBuilder emptyStage uniforms defines lines vertex fragment];
  cbn [app]; rewrite ?app_nil_r, <- ?app_assoc; try reflexivity.

Ltac run_build :=
  unfold bind, ret, when, deref, throw, addDefine, addUniform,
    addFragmentLines, addVertexLines, update;
  cbn; builder_eq.

(** ** The program the constructor assembles, piece by piece *)

Section Assembled.
Context `{VoxelShaders}.

Import ShaderDestination.

(** [clippingPlanes.unionClippingRegions], read where the collection is
    there. *)
Definition unionRegions (clippingPlanes : option ClippingPlaneCollection.t) : bool :=
  match clippingPlanes with
  | Some planes => ClippingPlaneCollection.unionClippingRegions planes
  | None => false
  end.

Definition uniformDeclarations (customShader : CustomShader.t)
  : list (string * string) :=
  flat_map (λ p : string * Uniform.t, [(Uniform.type p.2, p.1)])
           (CustomShader.uniforms customShader)
  ++ [("sampler2D", "u_megatextureTextures[METADATA_COUNT]")].

Definition baseLines (customShader : CustomShader.t) : list string :=
  [CustomShader.fragmentShaderText customShader; "#line 0"; Octree;
   IntersectionUtils; Megatexture].

Definition clippingPlanesDefines (clippingPlanes : option ClippingPlaneCollection.t)
  : list (string * option JsValue) :=
  let n := getClippingPlanesLength clippingPlanes in
  if 0 <? n then
    [("CLIPPING_PLANES", None); ("CLIPPING_PLANES_COUNT", Some (JsNumber n))]
    ++ (if unionRegions clippingPlanes then [("CLIPPING_PLANES_UNION", None)] else [])
  else [].

Definition clippingPlanesLines (clippingPlanes : option ClippingPlaneCollection.t)
  : list string :=
  if 0 <? getClippingPlanesLength clippingPlanes
  then [IntersectClippingPlanes] else [].

Definition depthTestDefines (depthTest : bool) : list (string * option JsValue) :=
  if depthTest then [("DEPTH_TEST", None)] else [].

Definition depthTestLines (depthTest : bool) : list string :=
  if depthTest then [IntersectDepth] else [].

Definition shapeTypeDefines (shapeType : string) : list (string * option JsValue) :=
  if String.eqb shapeType "BOX" then [("SHAPE_BOX", None)] else [].

Definition shapeLines (shapeType : string) : list string :=
  if String.eqb shapeType "BOX" then
    [convertUvToBox; IntersectBox; Intersection]
  else if String.eqb shapeType "CYLINDER" then
    [IntersectCylinder; Intersection; convertUvToCylinder]
  else if String.eqb shapeType "ELLIPSOID" then
    [IntersectEllipsoid; Intersection; convertUvToEllipsoid]
  else [].

(** The define one property of the shape's mapping stands for, following
    the three markers: the absent marker stands for none, the
    present-with-no-text marker for a define with no text, any other value
    for a define with that value. *)
Definition shapeDefine (key : string) (value : JsValue)
  : list (string * option JsValue) :=
  match value with
  | JsUndefined => []
  | JsBoolean true => [(key, None)]
  | _ => [(key, Some value)]
  end.

Definition shapeDefines (shape : VoxelShape.t) : list (string * option JsValue) :=
  flat_map (λ p : string * JsValue, shapeDefine p.1 p.2)
           (VoxelShape.shaderDefines shape).

(** The counter of the intersection slots after the clipping planes took
    theirs, and after the depth test took its own. *)
Definition countAfterClipping (count : Z)
  (clippingPlanes : option ClippingPlaneCollection.t) : Z :=
  let n := getClippingPlanesLength clippingPlanes in
  if 0 <? n then
    if n =? 1 then count + 1
    else if unionRegions clippingPlanes then count + 2
    else count + 1
  else count.

Definition countAfterDepth (count : Z) (depthTest : bool) : Z :=
  if depthTest then count + 1 else count.

Definition intersectionDefines (count : Z)
  (clippingPlanes : option ClippingPlaneCollection.t) (depthTest : bool)
  : list (string * option JsValue) :=
  (if 0 <? getClippingPlanesLength clippingPlanes
   then [("CLIPPING_PLANES_INTERSECTION_INDEX", Some (JsNumber count))] else [])
  ++ (if depthTest
      then [("DEPTH_INTERSECTION_INDEX",
             Some (JsNumber (countAfterClipping count clippingPlanes)))]
      else [])
  ++ [("INTERSECTION_COUNT",
       Some (JsNumber (countAfterDepth (countAfterClipping count clippingPlanes)
                                       depthTest)))].

Definition hasPadding (primitive : VoxelPrimitive.t) : bool :=
  negb (Cartesian3.equals (VoxelPrimitive.paddingBefore primitive) Cartesian3.ZERO)
  || negb (Cartesian3.equals (VoxelPrimitive.paddingAfter primitive) Cartesian3.ZERO).

Definition additionalDefines (primitive : VoxelPrimitive.t)
  : list (string * option JsValue) :=
  (if hasPadding primitive then [("PADDING", None)] else [])
  ++ (if VoxelPrimitive._useLogDepth primitive
      then [("LOG_DEPTH_READ_ONLY", None)] else [])
  ++ (if VoxelPrimitive._jitter primitive then [("JITTER", None)] else [])
  ++ (if VoxelPrimitive._nearestSampling primitive
      then [("NEAREST_SAMPLING", None)] else [])
  ++ [("SAMPLE_COUNT",
       Some (JsString (pretty (VoxelTraversal._sampleCount
                                 (VoxelPrimitive._traversal primitive)))))].

Definition assembledDefines (primitive : VoxelPrimitive.t)
  : list (string * option JsValue) :=
  let clippingPlanes := VoxelPrimitive._clippingPlanes primitive in
  let depthTest := VoxelPrimitive._depthTest primitive in
  let shape := VoxelPrimitive._shape primitive in
  clippingPlanesDefines clippingPlanes
  ++ depthTestDefines depthTest
  ++ shapeTypeDefines (VoxelProvider.shape (VoxelPrimitive._provider primitive))
  ++ shapeDefines shape
  ++ intersectionDefines (VoxelShape.shaderMaximumIntersectionsLength shape)
       clippingPlanes depthTest
  ++ additionalDefines primitive.

Definition assembledLines (primitive : VoxelPrimitive.t) : list string :=
  baseLines (VoxelPrimitive._customShader primitive)
  ++ clippingPlanesLines (VoxelPrimitive._clippingPlanes primitive)
  ++ depthTestLines (VoxelPrimitive._depthTest primitive)
  ++ shapeLines (VoxelProvider.shape (VoxelPrimitive._provider primitive))
  ++ [VoxelFS].

Definition assembled (primitive : VoxelPrimitive.t) : ShaderBuilder :=
  {| vertex := {| uniforms := []; defines := []; lines := [VoxelVS] |};
     fragment :=
       {| uniforms := uniformDeclarations (VoxelPrimitive._customShader primitive);
          defines := assembledDefines primitive;
          lines := assembledLines primitive |} |}.

End Assembled.

(** ** Reading the result *)

Definition fragmentUniforms (resources : RenderResources.t) : list (string * string) :=
  uniforms (fragment (RenderResources.shaderBuilder resources)).

Definition fragmentDefines (resources : RenderResources.t)
  : list (string * option JsValue) :=
  defines (fragment (RenderResources.shaderBuilder resources)).

Definition fragmentLines (resources : RenderResources.t) : list string :=
  lines (fragment (RenderResources.shaderBuilder resources)).

(** The constructed object of a call that returned. *)
Definition constructed {A} (o : outcome (A * RenderResources.t))
  : option RenderResources.t :=
  match o with Returns (_, resources) => Some resources | Throws _ => None end.

(** The names that are defined in the fragment stage. *)
Definition definedNames (resources : RenderResources.t) : list string :=
  (fragmentDefines resources).*1.

(** [a] stands at an earlier position of [texts] than [b]. *)
Definition appearsBefore (a b : string) (texts : list string) : Prop :=
  ∃ i j : nat, (i < j)%nat ∧ texts !! i = Some a ∧ texts !! j = Some b.

(** The clipping planes are enabled: the collaborator is there, its
    [enabled] flag is set and it holds at least one plane. *)
Definition clippingEnabled (primitive : VoxelPrimitive.t) : Prop :=
  ∃ planes,
    VoxelPrimitive._clippingPlanes primitive = Some planes ∧
    ClippingPlaneCollection.enabled planes = true ∧
    0 < ClippingPlaneCollection.length planes.

(** The same primitive with another define mapping on its shape, and with
    another clipping-plane collaborator. *)
Definition withShaderDefines (shaderDefines : list (string * JsValue))
  (primitive : VoxelPrimitive.t) : VoxelPrimitive.t :=
  {| VoxelPrimitive._customShader := VoxelPrimitive._customShader primitive;
     VoxelPrimitive._uniformMap := VoxelPrimitive._uniformMap primitive;
     VoxelPrimitive._clippingPlanes := VoxelPrimitive._clippingPlanes primitive;
     VoxelPrimitive._depthTest := VoxelPrimitive._depthTest primitive;
     VoxelPrimitive._provider := VoxelPrimitive._provider primitive;
     VoxelPrimitive._shape :=
       {| VoxelShape.shaderDefines := shaderDefines;
          VoxelShape.shaderMaximumIntersectionsLength :=
            VoxelShape.shaderMaximumIntersectionsLength
              (VoxelPrimitive._shape primitive) |};
     VoxelPrimitive.paddingBefore := VoxelPrimitive.paddingBefore primitive;
     VoxelPrimitive.paddingAfter := VoxelPrimitive.paddingAfter primitive;
     VoxelPrimitive._useLogDepth := VoxelPrimitive._useLogDepth primitive;
     VoxelPrimitive._jitter := VoxelPrimitive._jitter primitive;
     VoxelPrimitive._nearestSampling := VoxelPrimitive._nearestSampling primitive;
     VoxelPrimitive._traversal := VoxelPrimitive._traversal primitive |}.

Definition withClippingPlanes (clippingPlanes : option ClippingPlaneCollection.t)
  (primitive : VoxelPrimitive.t) : VoxelPrimitive.t :=
  {| VoxelPrimitive._customShader := VoxelPrimitive._customShader primitive;
     VoxelPrimitive._uniformMap := VoxelPrimitive._uniformMap primitive;
     VoxelPrimitive._clippingPlanes := clippingPlanes;
     VoxelPrimitive._depthTest := VoxelPrimitive._depthTest primitive;
     VoxelPrimitive._provider := VoxelPrimitive._provider primitive;
     VoxelPrimitive._shape := VoxelPrimitive._shape primitive;
     VoxelPrimitive.paddingBefore := VoxelPrimitive.paddingBefore primitive;
     VoxelPrimitive.paddingAfter := VoxelPrimitive.paddingAfter primitive;
     VoxelPrimitive._useLogDepth := VoxelPrimitive._useLogDepth primitive;
     VoxelPrimitive._jitter := VoxelPrimitive._jitter primitive;
     VoxelPrimitive._nearestSampling := VoxelPrimitive._nearestSampling primitive;
     VoxelPrimitive._traversal := VoxelPrimitive._traversal primitive |}.

(** The names of the defines that announce a feature of the primitive or
    carry the slot of one. *)
Definition featureDefineNames : list string :=
  ["PADDING"; "JITTER"; "NEAREST_SAMPLING"; "LOG_DEPTH_READ_ONLY";
   "DEPTH_TEST"; "CLIPPING_PLANES"; "DEPTH_INTERSECTION_INDEX";
   "CLIPPING_PLANES_INTERSECTION_INDEX"].

(** ** Sample configurations *)

(** A shader library of short, pairwise different texts. *)
Definition sampleShaders : VoxelShaders :=
  {| VoxelFS := "void main() {}";
     VoxelVS := "void main() { gl_Position = vec4(0.0); }";
     IntersectionUtils := "// IntersectionUtils";
     IntersectDepth := "// IntersectDepth";
     IntersectClippingPlanes := "// IntersectClippingPlanes";
     IntersectBox := "// IntersectBox";
     IntersectCylinder := "// IntersectCylinder";
     IntersectEllipsoid := "// IntersectEllipsoid";
     Intersection := "// Intersection";
     convertUvToBox := "// convertUvToBox";
     convertUvToCylinder := "// convertUvToCylinder";
     convertUvToEllipsoid := "// convertUvToEllipsoid";
     Octree := "// Octree";
     Megatexture := "// Megatexture" |}.

(** A custom shader with one uniform, [u_tint]. *)
Definition sampleCustomShader : CustomShader.t :=
  {| CustomShader.fragmentShaderText := "void fragmentMain() {}";
     CustomShader.uniforms := [("u_tint", {| Uniform.type := "vec3" |})];
     CustomShader.uniformMap := {[ "u_tint" := FunctionRef 1 ]} |}.

(** A shape that reserves [maximumIntersections] slots, with one define of
    each marker. *)
Definition sampleShape (maximumIntersections : Z) : VoxelShape.t :=
  {| VoxelShape.shaderDefines :=
       [("BOX_INTERSECTION_INDEX", JsNumber 0);
        ("BOX_HAS_RENDER_BOUNDS", JsBoolean true);
        ("BOX_IS_2D", JsUndefined)];
     VoxelShape.shaderMaximumIntersectionsLength := maximumIntersections |}.

(** A primitive whose base uniform map binds [u_time] only; no padding, no
    log depth, no jitter, linear sampling, 64 samples. *)
Definition samplePrimitive (shapeType : string)
  (clippingPlanes : option ClippingPlaneCollection.t) (depthTest : bool)
  : VoxelPrimitive.t :=
  {| VoxelPrimitive._customShader := sampleCustomShader;
     VoxelPrimitive._uniformMap := {[ "u_time" := FunctionRef 2 ]};
     VoxelPrimitive._clippingPlanes := clippingPlanes;
     VoxelPrimitive._depthTest := depthTest;
     VoxelPrimitive._provider := {| VoxelProvider.shape := shapeType |};
     VoxelPrimitive._shape := sampleShape 1;
     VoxelPrimitive.paddingBefore := Cartesian3.ZERO;
     VoxelPrimitive.paddingAfter := Cartesian3.ZERO;
     VoxelPrimitive._useLogDepth := false;
     VoxelPrimitive._jitter := false;
     VoxelPrimitive._nearestSampling := false;
     VoxelPrimitive._traversal := {| VoxelTraversal._sampleCount := 64 |} |}.

Definition planes (enabled : bool) (length : Z) (union : bool)
  : option ClippingPlaneCollection.t :=
  Some {| ClippingPlaneCollection.enabled := enabled;
          ClippingPlaneCollection.length := length;
          ClippingPlaneCollection.unionClippingRegions := union |}.


(** The sample primitive when its shape defines [JITTER] itself. *)
Definition sampleJitterShape : VoxelPrimitive.t :=
  withShaderDefines [("JITTER", JsBoolean true)] (samplePrimitive "BOX" None false).

(** ** More ways to read and vary a configuration *)

(** The same primitive with another custom shader. *)
Definition withCustomShader (customShader : CustomShader.t)
  (primitive : VoxelPrimitive.t) : VoxelPrimitive.t :=
  {| VoxelPrimitive._customShader := customShader;
     VoxelPrimitive._uniformMap := VoxelPrimitive._uniformMap primitive;
     VoxelPrimitive._clippingPlanes := VoxelPrimitive._clippingPlanes primitive;
     VoxelPrimitive._depthTest := VoxelPrimitive._depthTest primitive;
     VoxelPrimitive._provider := VoxelPrimitive._provider primitive;
     VoxelPrimitive._shape := VoxelPrimitive._shape primitive;
     VoxelPrimitive.paddingBefore := VoxelPrimitive.paddingBefore primitive;
     VoxelPrimitive.paddingAfter := VoxelPrimitive.paddingAfter primitive;
     VoxelPrimitive._useLogDepth := VoxelPrimitive._useLogDepth primitive;
     VoxelPrimitive._jitter := VoxelPrimitive._jitter primitive;
     VoxelPrimitive._nearestSampling := VoxelPrimitive._nearestSampling primitive;
     VoxelPrimitive._traversal := VoxelPrimitive._traversal primitive |}.

(** The same primitive with the depth test switched on or off. *)
Definition withDepthTest (depthTest : bool)
  (primitive : VoxelPrimitive.t) : VoxelPrimitive.t :=
  {| VoxelPrimitive._customShader := VoxelPrimitive._customShader primitive;
     VoxelPrimitive._uniformMap := VoxelPrimitive._uniformMap primitive;
     VoxelPrimitive._clippingPlanes := VoxelPrimitive._clippingPlanes primitive;
     VoxelPrimitive._depthTest := depthTest;
     VoxelPrimitive._provider := VoxelPrimitive._provider primitive;
     VoxelPrimitive._shape := VoxelPrimitive._shape primitive;
     VoxelPrimitive.paddingBefore := VoxelPrimitive.paddingBefore primitive;
     VoxelPrimitive.paddingAfter := VoxelPrimitive.paddingAfter primitive;
     VoxelPrimitive._useLogDepth := VoxelPrimitive._useLogDepth primitive;
     VoxelPrimitive._jitter := VoxelPrimitive._jitter primitive;
     VoxelPrimitive._nearestSampling := VoxelPrimitive._nearestSampling primitive;
     VoxelPrimitive._traversal := VoxelPrimitive._traversal primitive |}.

(** Every name the constructor itself passes to [addDefine], in the order
    of the calls (lines 95-224). *)
Definition constructorDefineNames : list string :=
  ["CLIPPING_PLANES"; "CLIPPING_PLANES_COUNT"; "CLIPPING_PLANES_UNION";
   "DEPTH_TEST"; "SHAPE_BOX"; "CLIPPING_PLANES_INTERSECTION_INDEX";
   "DEPTH_INTERSECTION_INDEX"; "INTERSECTION_COUNT"; "PADDING";
   "LOG_DEPTH_READ_ONLY"; "JITTER"; "NEAREST_SAMPLING"; "SAMPLE_COUNT"].

(** The name of the uniform that the constructor declares itself. *)
Definition megatextureUniformName : string :=
  "u_megatextureTextures[METADATA_COUNT]".

(** The names of the uniforms declared in the fragment stage. *)
Definition uniformNames (resources : RenderResources.t) : list string :=
  (fragmentUniforms resources).*2.


(** ** The builder's additions compose *)

Lemma appendBuilder_empty builder :
  appendBuilder builder newShaderBuilder = builder.
Proof. builder_eq. Qed.

Lemma appendBuilder_assoc b1 b2 b3 :
  appendBuilder (appendBuilder b1 b2) b3 = appendBuilder b1 (appendBuilder b2 b3).
Proof. builder_eq. Qed.

Lemma Emits_ret {A} (a : A) : Emits (ret a) a newShaderBuilder.
Proof. intros b. unfold ret. by rewrite appendBuilder_empty. Qed.

Lemma Emits_bind {A B} (m : Build A) (k : A → Build B) a b d1 d2 :
  Emits m a d1 → Emits (k a) b d2 → Emits (bind m k) b (appendBuilder d1 d2).
Proof.
  intros Hm Hk builder. unfold bind.
  by rewrite Hm, Hk, appendBuilder_assoc.
Qed.

Lemma Emits_eq {A} (m : Build A) a d d' : Emits m a d → d = d' → Emits m a d'.
Proof. by intros ? <-. Qed.

Lemma Emits_addDefine identifier value :
  Emits (addDefine identifier value ShaderDestination.FRAGMENT) tt
        (toFragment [] [(identifier, defineValue value)] []).
Proof. intros b. unfold addDefine, update. f_equal. f_equal. builder_eq. Qed.

Lemma Emits_addUniform type identifier :
  Emits (addUniform type identifier ShaderDestination.FRAGMENT) tt
        (toFragment [(type, identifier)] [] []).
Proof. intros b. unfold addUniform, update. f_equal. f_equal. builder_eq. Qed.

Lemma Emits_addFragmentLines texts :
  Emits (addFragmentLines texts) tt (toFragment [] [] texts).
Proof. intros b. unfold addFragmentLines, update. f_equal. f_equal. builder_eq. Qed.

Lemma Emits_addVertexLines texts :
  Emits (addVertexLines texts) tt (toVertex texts).
Proof. intros b. unfold addVertexLines, update. f_equal. f_equal. builder_eq. Qed.

(** A [for .. in] loop adds what its body adds for each property, in the
    order of the visit. *)
Lemma Emits_forIn {A} (object : list (string * A)) body
    (us : string → A → list (string * string))
    (ds : string → A → list (string * option JsValue)) :
  (∀ key value, Emits (body key value) tt (toFragment (us key value) (ds key value) [])) →
  Emits (forIn object body) tt
        (toFragment (flat_map (λ p, us p.1 p.2) object)
                    (flat_map (λ p, ds p.1 p.2) object) []).
Proof.
  intros Hbody. induction object as [|[key value] rest IH]; simpl.
  - apply Emits_ret.
  - eapply Emits_eq; [eapply Emits_bind; [apply Hbody | apply IH] |].
    reflexivity.
Qed.

(** ** Each piece of the constructor adds its part *)

Section Runs.
Context `{VoxelShaders}.

Import ShaderDestination.

Lemma Emits_addCustomShaderUniforms customShader :
  Emits (addCustomShaderUniforms customShader) tt
        (toFragment (uniformDeclarations customShader) [] []).
Proof.
  unfold addCustomShaderUniforms, uniformDeclarations.
  eapply Emits_eq.
  - eapply Emits_bind; [|apply Emits_addUniform].
    apply (Emits_forIn _ _ (λ name uniform, [(Uniform.type uniform, name)])
                       (λ _ _, [])).
    intros. apply Emits_addUniform.
  - unfold appendBuilder, appendStage, toFragment; cbn.
    do 2 f_equal. clear. induction (CustomShader.uniforms customShader); by cbn.
Qed.

Lemma Emits_addBaseLines customShader :
  Emits (addBaseLines customShader) tt
        (appendBuilder (toVertex [VoxelVS])
                       (toFragment [] [] (baseLines customShader))).
Proof.
  unfold addBaseLines.
  eapply Emits_bind; [apply Emits_addVertexLines | apply Emits_addFragmentLines].
Qed.

Lemma Emits_addClippingPlanes clippingPlanes :
  Emits (addClippingPlanes clippingPlanes (getClippingPlanesLength clippingPlanes)) tt
        (toFragment [] (clippingPlanesDefines clippingPlanes)
                    (clippingPlanesLines clippingPlanes)).
Proof.
  intros builder.
  unfold addClippingPlanes, clippingPlanesDefines, clippingPlanesLines.
  destruct clippingPlanes as [[enabled n union]|]; cbn.
  - destruct enabled; cbn.
    + destruct (0 <? n); cbn; [destruct union; cbn|];
        run_build.
    + run_build.
  - run_build.
Qed.

Lemma Emits_addDepthTest depthTest :
  Emits (addDepthTest depthTest) tt
        (toFragment [] (depthTestDefines depthTest) (depthTestLines depthTest)).
Proof.
  intros builder. unfold addDepthTest, depthTestDefines, depthTestLines.
  destruct depthTest; cbn; run_build.
Qed.

Lemma Emits_addShapeLines shapeType :
  Emits (addShapeLines shapeType) tt
        (toFragment [] (shapeTypeDefines shapeType) (shapeLines shapeType)).
Proof.
  intros builder. unfold addShapeLines, shapeTypeDefines, shapeLines.
  destruct (String.eqb shapeType "BOX");
    [|destruct (String.eqb shapeType "CYLINDER");
      [|destruct (String.eqb shapeType "ELLIPSOID")]];
    run_build.
Qed.

Lemma Emits_addShapeDefines shape :
  Emits (addShapeDefines shape) tt (toFragment [] (shapeDefines shape) []).
Proof.
  unfold addShapeDefines, shapeDefines.
  eapply Emits_eq.
  - apply (Emits_forIn _ _ (λ _ _, []) shapeDefine).
    intros key value. destruct value as [|[|]| |]; cbn;
      first [apply Emits_ret | apply Emits_addDefine].
  - unfold toFragment. do 2 f_equal.
    induction (VoxelShape.shaderDefines shape); by cbn.
Qed.

Lemma Emits_countIntersections shape clippingPlanes depthTest :
  Emits (countIntersections shape clippingPlanes
           (getClippingPlanesLength clippingPlanes) depthTest) tt
        (toFragment []
           (intersectionDefines (VoxelShape.shaderMaximumIntersectionsLength shape)
              clippingPlanes depthTest) []).
Proof.
  intros builder.
  unfold countIntersections, intersectionDefines, countAfterDepth,
    countAfterClipping.
  destruct clippingPlanes as [[enabled n union]|]; cbn.
  - destruct enabled; cbn.
    + destruct (0 <? n); cbn; [destruct (n =? 1); cbn; [|destruct union; cbn]|];
        destruct depthTest; run_build.
    + destruct depthTest; run_build.
  - destruct depthTest; run_build.
Qed.

Lemma Emits_addAdditionalDefines primitive :
  Emits (addAdditionalDefines primitive) tt
        (toFragment [] (additionalDefines primitive) []).
Proof.
  intros builder. unfold addAdditionalDefines, additionalDefines.
  fold (hasPadding primitive).
  destruct (hasPadding primitive), (VoxelPrimitive._useLogDepth primitive),
    (VoxelPrimitive._jitter primitive), (VoxelPrimitive._nearestSampling primitive);
    run_build.
Qed.

(** Whatever builder the calls of the constructor start from, they add
    [assembled] to it. *)
Lemma buildShader_emits primitive :
  Emits (buildShader primitive (VoxelPrimitive._clippingPlanes primitive)
           (getClippingPlanesLength (VoxelPrimitive._clippingPlanes primitive)))
        tt (assembled primitive).
Proof.
  unfold buildShader. eapply Emits_eq.
  - eapply Emits_bind; [apply Emits_addCustomShaderUniforms|].
    eapply Emits_bind; [apply Emits_addBaseLines|].
    eapply Emits_bind; [apply Emits_addClippingPlanes|].
    eapply Emits_bind; [apply Emits_addDepthTest|].
    eapply Emits_bind; [apply Emits_addShapeLines|].
    eapply Emits_bind; [apply Emits_addFragmentLines|].
    eapply Emits_bind; [apply Emits_addShapeDefines|].
    eapply Emits_bind; [apply Emits_countIntersections|].
    apply Emits_addAdditionalDefines.
  - unfold assembled, assembledDefines, assembledLines. flatten_builder.
Qed.

(** The builder the constructor starts from ends as [assembled]. *)
Lemma buildShader_assembled primitive :
  buildShader primitive (VoxelPrimitive._clippingPlanes primitive)
    (getClippingPlanesLength (VoxelPrimitive._clippingPlanes primitive))
    newShaderBuilder
  = Returns (tt, assembled primitive).
Proof. rewrite (buildShader_emits primitive). reflexivity. Qed.

Lemma VoxelRenderResources_returns primitive :
  let uniformMap :=
    combine (VoxelPrimitive._uniformMap primitive)
            (CustomShader.uniformMap (VoxelPrimitive._customShader primitive)) in
  let primitive' := VoxelPrimitive.set_uniformMap uniformMap primitive in
  VoxelRenderResources primitive
  = Returns (primitive',
             {| RenderResources.shaderBuilder := assembled primitive;
                RenderResources.uniformMap := uniformMap;
                RenderResources.clippingPlanes := VoxelPrimitive._clippingPlanes primitive;
                RenderResources.clippingPlanesLength :=
                  getClippingPlanesLength (VoxelPrimitive._clippingPlanes primitive) |}).
Proof.
  intros uniformMap primitive'. unfold VoxelRenderResources.
  fold uniformMap. fold primitive'.
  change (VoxelPrimitive._clippingPlanes primitive')
    with (VoxelPrimitive._clippingPlanes primitive).
  pose proof (buildShader_assembled primitive') as Hrun.
  change (VoxelPrimitive._clippingPlanes primitive')
    with (VoxelPrimitive._clippingPlanes primitive) in Hrun.
  rewrite Hrun. reflexivity.
Qed.

End Runs.

(** ** The sample configurations, built *)

Example sample_box_build :
  @VoxelRenderResources sampleShaders (samplePrimitive "BOX" None false)
  = Returns
      (VoxelPrimitive.set_uniformMap
         {[ "u_tint" := FunctionRef 1; "u_time" := FunctionRef 2 ]}
         (samplePrimitive "BOX" None false),
       {| RenderResources.shaderBuilder :=
            {| vertex :=
                 {| uniforms := []; defines := [];
                    lines := ["void main() { gl_Position = vec4(0.0); }"] |};
               fragment :=
                 {| uniforms :=
                      [("vec3", "u_tint");
                       ("sampler2D", "u_megatextureTextures[METADATA_COUNT]")];
                    defines :=
                      [("SHAPE_BOX", None);
                       ("BOX_INTERSECTION_INDEX", Some (JsNumber 0));
                       ("BOX_HAS_RENDER_BOUNDS", None);
                       ("INTERSECTION_COUNT", Some (JsNumber 1));
                       ("SAMPLE_COUNT", Some (JsString "64"))];
                    lines :=
                      ["void fragmentMain() {}"; "#line 0"; "// Octree";
                       "// IntersectionUtils"; "// Megatexture";
                       "// convertUvToBox"; "// IntersectBox";
                       "// Intersection"; "void main() {}"] |} |};
          RenderResources.uniformMap :=
            {[ "u_tint" := FunctionRef 1; "u_time" := FunctionRef 2 ]};
          RenderResources.clippingPlanes := None;
          RenderResources.clippingPlanesLength := 0 |}).
Proof. vm_compute. reflexivity. Qed.

(** Three planes in intersection mode and the depth test, on a shape that
    reserves one slot: the clipping planes take slot 1, the depth test slot
    2, and three slots are counted. *)
Example sample_clipping_and_depth :
  fragmentDefines
    <$> constructed (@VoxelRenderResources sampleShaders
                       (samplePrimitive "CYLINDER" (planes true 3 false) true))
  = Some [("CLIPPING_PLANES", None);
          ("CLIPPING_PLANES_COUNT", Some (JsNumber 3));
          ("DEPTH_TEST", None);
          ("BOX_INTERSECTION_INDEX", Some (JsNumber 0));
          ("BOX_HAS_RENDER_BOUNDS", None);
          ("CLIPPING_PLANES_INTERSECTION_INDEX", Some (JsNumber 1));
          ("DEPTH_INTERSECTION_INDEX", Some (JsNumber 2));
          ("INTERSECTION_COUNT", Some (JsNumber 3));
          ("SAMPLE_COUNT", Some (JsString "64"))].
Proof. vm_compute. reflexivity. Qed.

(** Three planes in union mode, no depth test: two slots for the planes. *)
Example sample_union_clipping :
  fragmentDefines
    <$> constructed (@VoxelRenderResources sampleShaders
                       (samplePrimitive "ELLIPSOID" (planes true 3 true) false))
  = Some [("CLIPPING_PLANES", None);
          ("CLIPPING_PLANES_COUNT", Some (JsNumber 3));
          ("CLIPPING_PLANES_UNION", None);
          ("BOX_INTERSECTION_INDEX", Some (JsNumber 0));
          ("BOX_HAS_RENDER_BOUNDS", None);
          ("CLIPPING_PLANES_INTERSECTION_INDEX", Some (JsNumber 1));
          ("INTERSECTION_COUNT", Some (JsNumber 3));
          ("SAMPLE_COUNT", Some (JsString "64"))].
Proof. vm_compute. reflexivity. Qed.

(** ** Properties of the build *)

Section Properties.
Context `{VoxelShaders}.

Lemma combine_idempotent (base custom : gmap string Accessor) :
  combine (combine base custom) custom = combine base custom.
Proof. unfold combine. by rewrite <- (assoc_L (∪)), (idemp_L (∪)). Qed.

Lemma assembled_set_uniformMap uniformMap primitive :
  assembled (VoxelPrimitive.set_uniformMap uniformMap primitive)
  = assembled primitive.
Proof. reflexivity. Qed.

(** C1: the intersection slots. The counter starts at the shape's
    [shaderMaximumIntersectionsLength] M. When the clipping planes are
    enabled (their count n is positive) CLIPPING_PLANES_INTERSECTION_INDEX
    is defined as M and the counter advances by 1 for one plane, by 2 for
    several planes in union mode, by 1 otherwise; when the depth test is
    on, DEPTH_INTERSECTION_INDEX is defined as the counter at that point
    and the counter advances by 1; INTERSECTION_COUNT is defined as the
    final counter. These defines are emitted next to one another, in this
    order. In particular the total is M without clipping and depth, M+1
    with one plane, M+2 with three planes in union mode, and with three
    planes in intersection mode and the depth test the depth slot is M+1
    and the total M+2. *)
Theorem intersection_slots_allocated (primitive : VoxelPrimitive.t) :
  ∃ primitive' resources pre post,
    VoxelRenderResources primitive = Returns (primitive', resources) ∧
    let M := VoxelShape.shaderMaximumIntersectionsLength
               (VoxelPrimitive._shape primitive) in
    let n := RenderResources.clippingPlanesLength resources in
    let union := unionRegions (VoxelPrimitive._clippingPlanes primitive) in
    let depthTest := VoxelPrimitive._depthTest primitive in
    let afterClipping :=
      if 0 <? n then
        if n =? 1 then M + 1 else if union then M + 2 else M + 1
      else M in
    let total := if depthTest then afterClipping + 1 else afterClipping in
    n = getClippingPlanesLength (VoxelPrimitive._clippingPlanes primitive) ∧
    fragmentDefines resources
    = pre
      ++ (if 0 <? n
          then [("CLIPPING_PLANES_INTERSECTION_INDEX", Some (JsNumber M))]
          else [])
      ++ (if depthTest
          then [("DEPTH_INTERSECTION_INDEX", Some (JsNumber afterClipping))]
          else [])
      ++ [("INTERSECTION_COUNT", Some (JsNumber total))]
      ++ post ∧
    (¬ 0 < n → depthTest = false → total = M) ∧
    (n = 1 → depthTest = false → total = M + 1) ∧
    (n = 3 → union = true → depthTest = false → total = M + 2) ∧
    (n = 3 → union = false → depthTest = true →
     afterClipping = M + 1 ∧ total = M + 2).
Proof.
  eexists _, _,
    (clippingPlanesDefines (VoxelPrimitive._clippingPlanes primitive)
     ++ depthTestDefines (VoxelPrimitive._depthTest primitive)
     ++ shapeTypeDefines (VoxelProvider.shape (VoxelPrimitive._provider primitive))
     ++ shapeDefines (VoxelPrimitive._shape primitive)),
    (additionalDefines primitive).
  split; [apply VoxelRenderResources_returns|].
  cbn zeta. unfold fragmentDefines. cbn [RenderResources.clippingPlanesLength
    RenderResources.shaderBuilder assembled fragment defines].
  split; [reflexivity|]. split.
  - unfold assembledDefines, intersectionDefines, countAfterDepth,
      countAfterClipping. cbn zeta. by rewrite <- !app_assoc.
  - split; [|split; [|split]].
    + intros Hn ->. by rewrite (proj2 (Z.ltb_ge _ _)) by lia.
    + intros -> ->. reflexivity.
    + intros -> -> ->. reflexivity.
    + intros -> -> ->. split; [reflexivity|].
      change (0 <? 3) with true. change (3 =? 1) with false. cbn iota. lia.
Qed.

(** C2, as the code has it: the build changes one field of the primitive it
    is given. Its uniform map is replaced by the merged map, the one the
    result carries as [uniformMap]; every other field is as it was. The
    shader builder of the result is a new one: it is what the constructor's
    calls make of [new ShaderBuilder()], and so holds what this build added
    and nothing else. *)
Theorem build_replaces_only_the_uniform_map (primitive : VoxelPrimitive.t) :
  ∃ primitive' resources,
    VoxelRenderResources primitive = Returns (primitive', resources) ∧
    buildShader primitive' (VoxelPrimitive._clippingPlanes primitive')
      (RenderResources.clippingPlanesLength resources) newShaderBuilder
    = Returns (tt, RenderResources.shaderBuilder resources) ∧
    (∀ builder,
       buildShader primitive' (VoxelPrimitive._clippingPlanes primitive')
         (RenderResources.clippingPlanesLength resources) builder
       = Returns (tt, appendBuilder builder (RenderResources.shaderBuilder resources))) ∧
    VoxelPrimitive._uniformMap primitive'
    = combine (VoxelPrimitive._uniformMap primitive)
        (CustomShader.uniformMap (VoxelPrimitive._customShader primitive)) ∧
    VoxelPrimitive._uniformMap primitive' = RenderResources.uniformMap resources ∧
    VoxelPrimitive._customShader primitive' = VoxelPrimitive._customShader primitive ∧
    VoxelPrimitive._clippingPlanes primitive' = VoxelPrimitive._clippingPlanes primitive ∧
    VoxelPrimitive._depthTest primitive' = VoxelPrimitive._depthTest primitive ∧
    VoxelPrimitive._provider primitive' = VoxelPrimitive._provider primitive ∧
    VoxelPrimitive._shape primitive' = VoxelPrimitive._shape primitive ∧
    VoxelPrimitive.paddingBefore primitive' = VoxelPrimitive.paddingBefore primitive ∧
    VoxelPrimitive.paddingAfter primitive' = VoxelPrimitive.paddingAfter primitive ∧
    VoxelPrimitive._useLogDepth primitive' = VoxelPrimitive._useLogDepth primitive ∧
    VoxelPrimitive._jitter primitive' = VoxelPrimitive._jitter primitive ∧
    VoxelPrimitive._nearestSampling primitive'
    = VoxelPrimitive._nearestSampling primitive ∧
    VoxelPrimitive._traversal primitive' = VoxelPrimitive._traversal primitive.
Proof.
  eexists _, _. split; [apply VoxelRenderResources_returns|].
  split; [apply (buildShader_assembled (VoxelPrimitive.set_uniformMap _ primitive))|].
  split; [apply (buildShader_emits (VoxelPrimitive.set_uniformMap _ primitive))|].
  cbn. repeat split.
Qed.


(** C8: whatever the custom shader declares, the uniform declarations of
    the fragment stage end with the megatexture sampler array,
    [sampler2D u_megatextureTextures[METADATA_COUNT]]. *)
Theorem megatexture_uniform_declared (primitive : VoxelPrimitive.t) :
  ∃ primitive' resources declared,
    VoxelRenderResources primitive = Returns (primitive', resources) ∧
    fragmentUniforms resources
    = declared ++ [("sampler2D", "u_megatextureTextures[METADATA_COUNT]")] ∧
    ("sampler2D", "u_megatextureTextures[METADATA_COUNT]")
    ∈ fragmentUniforms resources.
Proof.
  eexists _, _, _. split; [apply VoxelRenderResources_returns|].
  unfold fragmentUniforms. cbn. unfold uniformDeclarations.
  split; [reflexivity|]. apply elem_of_app. right. apply list_elem_of_singleton.
  reflexivity.
Qed.

(** C9: building twice gives the same result twice. The first build leaves
    the primitive with the merged uniform map; a build of the primitive as
    it then stands returns the same vertex and fragment sources, the same
    uniform declarations, defines and uniform map, and leaves the primitive
    as it found it. *)
Theorem repeated_builds_agree (primitive : VoxelPrimitive.t) :
  ∃ primitive' resources,
    VoxelRenderResources primitive = Returns (primitive', resources) ∧
    VoxelRenderResources primitive' = Returns (primitive', resources).
Proof.
  eexists _, _. split; [apply VoxelRenderResources_returns|].
  rewrite VoxelRenderResources_returns. cbn zeta.
  rewrite assembled_set_uniformMap.
  cbn [VoxelPrimitive.set_uniformMap VoxelPrimitive._uniformMap
       VoxelPrimitive._customShader VoxelPrimitive._clippingPlanes].
  by rewrite combine_idempotent.
Qed.

(** C4, as the code has it: the chain of comparisons has no final branch,
    so a shape that is none of BOX, CYLINDER and ELLIPSOID raises nothing.
    The build returns; the shape selection contributes no fragment and no
    define, and everything else is assembled as for any other shape. *)
Theorem unknown_shape_build_completes (primitive : VoxelPrimitive.t) :
  let shapeType := VoxelProvider.shape (VoxelPrimitive._provider primitive) in
  let clippingPlanes := VoxelPrimitive._clippingPlanes primitive in
  let depthTest := VoxelPrimitive._depthTest primitive in
  let shape := VoxelPrimitive._shape primitive in
  shapeType ≠ "BOX" → shapeType ≠ "CYLINDER" → shapeType ≠ "ELLIPSOID" →
  ∃ primitive' resources,
    VoxelRenderResources primitive = Returns (primitive', resources) ∧
    fragmentLines resources
    = baseLines (VoxelPrimitive._customShader primitive)
      ++ clippingPlanesLines clippingPlanes
      ++ depthTestLines depthTest
      ++ [VoxelFS] ∧
    fragmentDefines resources
    = clippingPlanesDefines clippingPlanes
      ++ depthTestDefines depthTest
      ++ shapeDefines shape
      ++ intersectionDefines (VoxelShape.shaderMaximumIntersectionsLength shape)
           clippingPlanes depthTest
      ++ additionalDefines primitive.
Proof.
  intros shapeType clippingPlanes depthTest shape Hbox Hcylinder Hellipsoid.
  eexists _, _. split; [apply VoxelRenderResources_returns|].
  unfold fragmentLines, fragmentDefines. cbn.
  unfold assembledLines, assembledDefines, shapeLines, shapeTypeDefines.
  fold shapeType.
  apply String.eqb_neq in Hbox, Hcylinder, Hellipsoid.
  by rewrite Hbox, Hcylinder, Hellipsoid.
Qed.

Lemma lookup_middle_0 {A} (l1 l2 : list A) (a : A) :
  (l1 ++ a :: l2) !! length l1 = Some a.
Proof. by rewrite list_lookup_middle. Qed.

Lemma lookup_middle_1 {A} (l1 l2 : list A) (a b : A) :
  (l1 ++ a :: b :: l2) !! S (length l1) = Some b.
Proof.
  rewrite (cons_middle a), (assoc_L (++)).
  rewrite list_lookup_middle; [done|]. rewrite length_app. cbn. lia.
Qed.

Lemma lookup_middle_2 {A} (l1 l2 : list A) (a b c : A) :
  (l1 ++ a :: b :: c :: l2) !! S (S (length l1)) = Some c.
Proof.
  rewrite (cons_middle a), (assoc_L (++)).
  rewrite (cons_middle b), (assoc_L (++)).
  rewrite list_lookup_middle; [done|]. rewrite !length_app. cbn. lia.
Qed.

(** C5: the order of the shape's fragments in the fragment source. For BOX
    the UV conversion stands before the box intersection test; for
    CYLINDER and for ELLIPSOID the intersection test of the shape stands
    before the UV conversion. *)
Theorem shape_fragments_in_order (primitive : VoxelPrimitive.t) :
  ∃ primitive' resources,
    VoxelRenderResources primitive = Returns (primitive', resources) ∧
    let shapeType := VoxelProvider.shape (VoxelPrimitive._provider primitive) in
    (shapeType = "BOX" →
     appearsBefore convertUvToBox IntersectBox (fragmentLines resources)) ∧
    (shapeType = "CYLINDER" →
     appearsBefore IntersectCylinder convertUvToCylinder (fragmentLines resources)) ∧
    (shapeType = "ELLIPSOID" →
     appearsBefore IntersectEllipsoid convertUvToEllipsoid (fragmentLines resources)).
Proof.
  eexists _, _. split; [apply VoxelRenderResources_returns|].
  unfold fragmentLines.
  cbn [RenderResources.shaderBuilder assembled fragment lines].
  unfold assembledLines.
  rewrite (assoc_L (++) (baseLines _)), (assoc_L (++) (_ ++ clippingPlanesLines _)).
  set (pre := (baseLines _ ++ _) ++ _).
  repeat split; intros ->; unfold shapeLines; cbn;
    exists (length pre).
  - exists (S (length pre)).
    split; [lia|]. split; [apply lookup_middle_0 | apply lookup_middle_1].
  - exists (S (S (length pre))).
    split; [lia|]. split; [apply lookup_middle_0 | apply lookup_middle_2].
  - exists (S (S (length pre))).
    split; [lia|]. split; [apply lookup_middle_0 | apply lookup_middle_2].
Qed.

(** C7: what one property of the shape's define mapping contributes.
    Whatever surrounds the property (key, value) in the mapping, the
    defines of the fragment stage are a fixed list before, a fixed list
    after, and between them: nothing when the value is [undefined], the
    define [key] without text when the value is [true], and the define
    [key] with that value otherwise. *)
Theorem shape_define_markers (primitive : VoxelPrimitive.t)
    (before after : list (string * JsValue)) (key : string) :
  ∃ pre post, ∀ value : JsValue,
    ∃ primitive' resources,
      VoxelRenderResources
        (withShaderDefines (before ++ (key, value) :: after) primitive)
      = Returns (primitive', resources) ∧
      fragmentDefines resources
      = pre
        ++ match value with
           | JsUndefined => []
           | JsBoolean true => [(key, None)]
           | _ => [(key, Some value)]
           end
        ++ post.
Proof.
  exists (clippingPlanesDefines (VoxelPrimitive._clippingPlanes primitive)
          ++ depthTestDefines (VoxelPrimitive._depthTest primitive)
          ++ shapeTypeDefines (VoxelProvider.shape (VoxelPrimitive._provider primitive))
          ++ flat_map (λ p : string * JsValue, shapeDefine p.1 p.2) before),
         (flat_map (λ p : string * JsValue, shapeDefine p.1 p.2) after
          ++ intersectionDefines
               (VoxelShape.shaderMaximumIntersectionsLength
                  (VoxelPrimitive._shape primitive))
               (VoxelPrimitive._clippingPlanes primitive)
               (VoxelPrimitive._depthTest primitive)
          ++ additionalDefines primitive).
  intros value.
  eexists _, _. split; [apply VoxelRenderResources_returns|].
  unfold fragmentDefines. cbn. unfold assembledDefines, shapeDefines. cbn.
  rewrite flat_map_app. cbn. rewrite <- !app_assoc.
  reflexivity.
Qed.

Lemma assembledDefines_no_clipping (primitive : VoxelPrimitive.t) :
  getClippingPlanesLength (VoxelPrimitive._clippingPlanes primitive) = 0 →
  let depthTest := VoxelPrimitive._depthTest primitive in
  let shape := VoxelPrimitive._shape primitive in
  let M := VoxelShape.shaderMaximumIntersectionsLength shape in
  assembledDefines primitive
  = depthTestDefines depthTest
    ++ shapeTypeDefines (VoxelProvider.shape (VoxelPrimitive._provider primitive))
    ++ shapeDefines shape
    ++ (if depthTest
        then [("DEPTH_INTERSECTION_INDEX", Some (JsNumber M))] else [])
    ++ [("INTERSECTION_COUNT", Some (JsNumber (if depthTest then M + 1 else M)))]
    ++ additionalDefines primitive.
Proof.
  intros Hlength. cbn zeta.
  unfold assembledDefines, clippingPlanesDefines, intersectionDefines,
    countAfterDepth, countAfterClipping. cbn zeta.
  rewrite Hlength. cbn [Z.ltb Z.compare app]. by rewrite <- !app_assoc.
Qed.

Lemma assembledLines_no_clipping (primitive : VoxelPrimitive.t) :
  getClippingPlanesLength (VoxelPrimitive._clippingPlanes primitive) = 0 →
  assembledLines primitive
  = baseLines (VoxelPrimitive._customShader primitive)
    ++ depthTestLines (VoxelPrimitive._depthTest primitive)
    ++ shapeLines (VoxelProvider.shape (VoxelPrimitive._provider primitive))
    ++ [VoxelFS].
Proof.
  intros Hlength. unfold assembledLines, clippingPlanesLines. by rewrite Hlength.
Qed.

(** C10: a clipping-plane collaborator that is missing, or whose [enabled]
    flag is off, counts for nothing, whatever number of planes it reports.
    The build returns and reports a [clippingPlanesLength] of 0; no
    clipping define and no clipping fragment is added; the depth slot, if
    any, is the first after the shape's, and the total counts no clipping
    slot; and the shader, the uniform map and the reported length are
    those of the build with an enabled collaborator of zero planes. *)
Theorem disabled_clipping_is_no_clipping (primitive : VoxelPrimitive.t) :
  (∀ planes, VoxelPrimitive._clippingPlanes primitive = Some planes →
             ClippingPlaneCollection.enabled planes = false) →
  ∃ primitive' resources,
    VoxelRenderResources primitive = Returns (primitive', resources) ∧
    RenderResources.clippingPlanesLength resources = 0 ∧
    let depthTest := VoxelPrimitive._depthTest primitive in
    let shapeType := VoxelProvider.shape (VoxelPrimitive._provider primitive) in
    let shape := VoxelPrimitive._shape primitive in
    let M := VoxelShape.shaderMaximumIntersectionsLength shape in
    fragmentDefines resources
    = depthTestDefines depthTest
      ++ shapeTypeDefines shapeType
      ++ shapeDefines shape
      ++ (if depthTest
          then [("DEPTH_INTERSECTION_INDEX", Some (JsNumber M))] else [])
      ++ [("INTERSECTION_COUNT",
           Some (JsNumber (if depthTest then M + 1 else M)))]
      ++ additionalDefines primitive ∧
    fragmentLines resources
    = baseLines (VoxelPrimitive._customShader primitive)
      ++ depthTestLines depthTest
      ++ shapeLines shapeType
      ++ [VoxelFS] ∧
    ∀ union, ∃ primitive0 resources0,
      VoxelRenderResources
        (withClippingPlanes
           (Some {| ClippingPlaneCollection.enabled := true;
                    ClippingPlaneCollection.length := 0;
                    ClippingPlaneCollection.unionClippingRegions := union |})
           primitive)
      = Returns (primitive0, resources0) ∧
      RenderResources.shaderBuilder resources0
      = RenderResources.shaderBuilder resources ∧
      RenderResources.uniformMap resources0
      = RenderResources.uniformMap resources ∧
      RenderResources.clippingPlanesLength resources0
      = RenderResources.clippingPlanesLength resources.
Proof.
  intros Hdisabled.
  assert (getClippingPlanesLength (VoxelPrimitive._clippingPlanes primitive) = 0)
    as Hlength.
  { destruct (VoxelPrimitive._clippingPlanes primitive) as [planes|] eqn:Hplanes;
      [|done]. cbn. by rewrite (Hdisabled planes). }
  eexists _, _. split; [apply VoxelRenderResources_returns|].
  unfold fragmentDefines, fragmentLines.
  cbn [RenderResources.shaderBuilder RenderResources.clippingPlanesLength
       RenderResources.uniformMap assembled fragment defines lines].
  split; [done|].
  split; [by apply assembledDefines_no_clipping|].
  split; [by apply assembledLines_no_clipping|].
  intros union. eexists _, _.
  split; [apply VoxelRenderResources_returns|].
  cbn [RenderResources.shaderBuilder RenderResources.clippingPlanesLength
       RenderResources.uniformMap].
  split; [|by rewrite Hlength].
  unfold assembled.
  rewrite (assembledDefines_no_clipping primitive Hlength),
    (assembledLines_no_clipping primitive Hlength).
  set (zero := Some {| ClippingPlaneCollection.enabled := true;
                       ClippingPlaneCollection.length := 0;
                       ClippingPlaneCollection.unionClippingRegions := union |}).
  rewrite (assembledDefines_no_clipping (withClippingPlanes zero primitive) eq_refl),
    (assembledLines_no_clipping (withClippingPlanes zero primitive) eq_refl).
  reflexivity.
Qed.

Lemma Cartesian3_equals_spec (left right : Cartesian3.t) :
  Cartesian3.equals left right = true ↔ left = right.
Proof.
  destruct left as [x1 y1 z1], right as [x2 y2 z2]. unfold Cartesian3.equals. cbn.
  rewrite !andb_true_iff, !Z.eqb_eq. split.
  - by intros [[-> ->] ->].
  - intros [= -> -> ->]. done.
Qed.

Lemma hasPadding_spec (primitive : VoxelPrimitive.t) :
  hasPadding primitive = true ↔
  VoxelPrimitive.paddingBefore primitive ≠ Cartesian3.ZERO ∨
  VoxelPrimitive.paddingAfter primitive ≠ Cartesian3.ZERO.
Proof.
  unfold hasPadding. rewrite orb_true_iff, !negb_true_iff.
  rewrite <- !not_true_iff_false, !Cartesian3_equals_spec. done.
Qed.

Lemma clippingEnabled_spec (primitive : VoxelPrimitive.t) :
  (0 <? getClippingPlanesLength (VoxelPrimitive._clippingPlanes primitive)) = true
  ↔ clippingEnabled primitive.
Proof.
  unfold clippingEnabled. rewrite Z.ltb_lt.
  destruct (VoxelPrimitive._clippingPlanes primitive) as [planes|]; cbn.
  - destruct (ClippingPlaneCollection.enabled planes) eqn:Henabled.
    + split; [by exists planes | by intros (? & [= <-] & _ & ?)].
    + split; [lia | intros (? & [= <-] & ? & _); congruence].
  - split; [lia | by intros (? & ? & _)].
Qed.

Lemma elem_of_shapeDefines_names (name : string) (shape : VoxelShape.t) :
  name ∈ (shapeDefines shape).*1 ↔
  ∃ value, (name, value) ∈ VoxelShape.shaderDefines shape ∧ value ≠ JsUndefined.
Proof.
  unfold shapeDefines.
  induction (VoxelShape.shaderDefines shape) as [|[key value] rest IH]; cbn.
  - split; [by intros ?%elem_of_nil | by intros (? & ?%elem_of_nil & _)].
  - rewrite fmap_app, elem_of_app, IH. split.
    + intros [Hhere | (v & Hin & Hv)].
      * exists value. destruct value as [|[|]| |]; cbn in Hhere;
          first [by apply elem_of_nil in Hhere
                | apply list_elem_of_singleton in Hhere as ->;
                  split; [apply elem_of_cons; by left | done]].
      * exists v. split; [apply elem_of_cons; by right | done].
    + intros (v & [[= -> ->] | Hin]%elem_of_cons & Hv).
      * left. destruct value as [|[|]| |]; cbn;
          first [done | by apply list_elem_of_singleton].
      * right. by exists v.
Qed.

Lemma elem_of_names_if (name : string) (condition : bool)
    (ds : list (string * option JsValue)) :
  name ∈ (if condition then ds else []).*1 ↔ condition = true ∧ name ∈ ds.*1.
Proof.
  destruct condition; cbn.
  - split; [by intros ? | by intros [_ ?]].
  - split; [by intros ?%elem_of_nil | by intros [? _]].
Qed.

(** The names that the build defines in the fragment stage. *)
Lemma elem_of_assembled_names (name : string) (primitive : VoxelPrimitive.t) :
  name ∈ (assembledDefines primitive).*1 ↔
  (clippingEnabled primitive ∧
   (name = "CLIPPING_PLANES" ∨ name = "CLIPPING_PLANES_COUNT" ∨
    (unionRegions (VoxelPrimitive._clippingPlanes primitive) = true ∧
     name = "CLIPPING_PLANES_UNION"))) ∨
  (VoxelPrimitive._depthTest primitive = true ∧ name = "DEPTH_TEST") ∨
  (VoxelProvider.shape (VoxelPrimitive._provider primitive) = "BOX" ∧
   name = "SHAPE_BOX") ∨
  (∃ value, (name, value) ∈ VoxelShape.shaderDefines (VoxelPrimitive._shape primitive)
            ∧ value ≠ JsUndefined) ∨
  (clippingEnabled primitive ∧ name = "CLIPPING_PLANES_INTERSECTION_INDEX") ∨
  (VoxelPrimitive._depthTest primitive = true ∧ name = "DEPTH_INTERSECTION_INDEX") ∨
  name = "INTERSECTION_COUNT" ∨
  (hasPadding primitive = true ∧ name = "PADDING") ∨
  (VoxelPrimitive._useLogDepth primitive = true ∧ name = "LOG_DEPTH_READ_ONLY") ∨
  (VoxelPrimitive._jitter primitive = true ∧ name = "JITTER") ∨
  (VoxelPrimitive._nearestSampling primitive = true ∧ name = "NEAREST_SAMPLING") ∨
  name = "SAMPLE_COUNT".
Proof.
  unfold assembledDefines. cbn zeta.
  rewrite !fmap_app, !elem_of_app, elem_of_shapeDefines_names.
  rewrite <- clippingEnabled_spec, <- (String.eqb_eq (VoxelProvider.shape _)).
  unfold clippingPlanesDefines, depthTestDefines, shapeTypeDefines,
    intersectionDefines, additionalDefines. cbn zeta.
  rewrite !fmap_app, !elem_of_app, !elem_of_names_if.
  rewrite !fmap_app, !elem_of_app, !elem_of_names_if.
  cbn [fmap list_fmap fst].
  rewrite !elem_of_cons, !elem_of_nil. tauto.
Qed.

(** C6, as the code has it: the feature defines follow the configuration
    when the shape's own define mapping does not use their names (the
    mapping is merged into the same define set without a look at its
    names), and the fragments are told apart by their text, so the depth
    and clipping fragments have to differ from the other texts of the
    program. Then PADDING is defined iff one of the padding vectors is not
    zero; JITTER, NEAREST_SAMPLING and LOG_DEPTH_READ_ONLY iff their flags
    are set; DEPTH_TEST, the depth fragment and DEPTH_INTERSECTION_INDEX
    iff the depth test is on; CLIPPING_PLANES, the clipping fragment and
    CLIPPING_PLANES_INTERSECTION_INDEX iff the clipping planes are
    enabled with a positive count. *)
Theorem feature_defines_follow_configuration (primitive : VoxelPrimitive.t) :
  let shapeType := VoxelProvider.shape (VoxelPrimitive._provider primitive) in
  let others :=
    baseLines (VoxelPrimitive._customShader primitive)
    ++ shapeLines shapeType ++ [VoxelFS] in
  (∀ key value,
     (key, value) ∈ VoxelShape.shaderDefines (VoxelPrimitive._shape primitive) →
     value ≠ JsUndefined → key ∉ featureDefineNames) →
  IntersectDepth ∉ IntersectClippingPlanes :: others →
  IntersectClippingPlanes ∉ IntersectDepth :: others →
  ∃ primitive' resources,
    VoxelRenderResources primitive = Returns (primitive', resources) ∧
    ("PADDING" ∈ definedNames resources ↔
       VoxelPrimitive.paddingBefore primitive ≠ Cartesian3.ZERO ∨
       VoxelPrimitive.paddingAfter primitive ≠ Cartesian3.ZERO) ∧
    ("JITTER" ∈ definedNames resources ↔ VoxelPrimitive._jitter primitive = true) ∧
    ("NEAREST_SAMPLING" ∈ definedNames resources ↔
       VoxelPrimitive._nearestSampling primitive = true) ∧
    ("LOG_DEPTH_READ_ONLY" ∈ definedNames resources ↔
       VoxelPrimitive._useLogDepth primitive = true) ∧
    ("DEPTH_TEST" ∈ definedNames resources ↔
       VoxelPrimitive._depthTest primitive = true) ∧
    (IntersectDepth ∈ fragmentLines resources ↔
       VoxelPrimitive._depthTest primitive = true) ∧
    ("DEPTH_INTERSECTION_INDEX" ∈ definedNames resources ↔
       VoxelPrimitive._depthTest primitive = true) ∧
    ("CLIPPING_PLANES" ∈ definedNames resources ↔ clippingEnabled primitive) ∧
    (IntersectClippingPlanes ∈ fragmentLines resources ↔
       clippingEnabled primitive) ∧
    ("CLIPPING_PLANES_INTERSECTION_INDEX" ∈ definedNames resources ↔
       clippingEnabled primitive).
Proof.
  intros shapeType others Hshape Hdepth Hclipping.
  eexists _, _. split; [apply VoxelRenderResources_returns|].
  unfold definedNames, fragmentDefines, fragmentLines. cbn.
  assert (∀ name, name ∈ featureDefineNames →
            ¬ ∃ value, (name, value)
                         ∈ VoxelShape.shaderDefines (VoxelPrimitive._shape primitive)
                       ∧ value ≠ JsUndefined) as Hfree.
  { intros name Hname (value & Hin & Hvalue). by apply (Hshape name value). }
  assert (∀ text, text ∈ assembledLines primitive ↔
            text ∈ others ∨
            (clippingEnabled primitive ∧ text = IntersectClippingPlanes) ∨
            (VoxelPrimitive._depthTest primitive = true ∧ text = IntersectDepth))
    as Hlines.
  { intros text. unfold assembledLines, others, clippingPlanesLines, depthTestLines.
    fold shapeType. rewrite <- clippingEnabled_spec, !elem_of_app.
    destruct (0 <? getClippingPlanesLength _), (VoxelPrimitive._depthTest primitive);
      rewrite ?elem_of_cons, ?elem_of_nil; intuition congruence. }
  rewrite not_elem_of_cons in Hdepth, Hclipping.
  destruct Hdepth as [Hdc Hdepth], Hclipping as [_ Hclipping].
  rewrite !elem_of_assembled_names, !Hlines, <- hasPadding_spec.
  unfold featureDefineNames in Hfree.
  repeat split;
    try (intros Hin; decompose [or and] Hin; clear Hin; subst;
         first [done | discriminate
               | exfalso; eapply Hfree; [|eassumption];
                 rewrite !elem_of_cons; tauto]);
    try (intros ?; tauto).
Qed.

End Properties.

(** ** The properties at the sample configurations *)

Lemma sampleShape_avoids_feature_names (key : string) (value : JsValue) :
  (key, value) ∈ VoxelShape.shaderDefines (sampleShape 1) →
  value ≠ JsUndefined → key ∉ featureDefineNames.
Proof.
  cbn. rewrite !elem_of_cons, elem_of_nil.
  intros [[= -> ->] | [[= -> ->] | [[= -> ->] | []]]] Hvalue;
    [| |done]; compute_done.
Qed.

Lemma sample_texts_differ (text : string) (shapeType : string) :
  text = @IntersectDepth sampleShaders ∨ text = @IntersectClippingPlanes sampleShaders →
  text ∉ @baseLines sampleShaders sampleCustomShader
         ++ @shapeLines sampleShaders shapeType ++ [@VoxelFS sampleShaders].
Proof.
  intros Htext. unfold shapeLines.
  destruct (String.eqb shapeType "BOX"), (String.eqb shapeType "CYLINDER"),
    (String.eqb shapeType "ELLIPSOID");
    destruct Htext as [-> | ->]; compute_done.
Qed.

(** C2 as stated fails: the custom shader of the sample binds [u_tint],
    which the base uniform map of the primitive does not; after the build
    the primitive's uniform map binds it. *)
Lemma build_changes_the_uniform_map :
  ∃ primitive' resources,
    @VoxelRenderResources sampleShaders (samplePrimitive "BOX" None false)
    = Returns (primitive', resources) ∧
    VoxelPrimitive._uniformMap (samplePrimitive "BOX" None false) !! "u_tint" = None ∧
    VoxelPrimitive._uniformMap primitive' !! "u_tint" = Some (FunctionRef 1) ∧
    primitive' ≠ samplePrimitive "BOX" None false.
Proof.
  eexists _, _. split; [apply VoxelRenderResources_returns|].
  split; [reflexivity|]. split; [reflexivity|].
  intros Hsame.
  apply (f_equal (λ p, VoxelPrimitive._uniformMap p !! "u_tint")) in Hsame.
  vm_compute in Hsame. discriminate.
Qed.



(** C4 as stated fails: a primitive whose provider names the shape SPHERE
    is built without an error; the program has no fragment of a shape. *)
Lemma unknown_shape_build_returns :
  ∃ primitive' resources,
    @VoxelRenderResources sampleShaders (samplePrimitive "SPHERE" None false)
    = Returns (primitive', resources) ∧
    fragmentLines resources
    = ["void fragmentMain() {}"; "#line 0"; "// Octree"; "// IntersectionUtils";
       "// Megatexture"; "void main() {}"] ∧
    returned (@VoxelRenderResources sampleShaders (samplePrimitive "SPHERE" None false))
    = true.
Proof.
  eexists _, _. split; [apply VoxelRenderResources_returns|].
  split; [reflexivity|]. by rewrite VoxelRenderResources_returns.
Qed.

Lemma unknown_shape_build_completes_witness :
  ∃ primitive' resources,
    @VoxelRenderResources sampleShaders
      (samplePrimitive "SPHERE" (planes true 3 false) true)
    = Returns (primitive', resources) ∧
    fragmentLines resources
    = ["void fragmentMain() {}"; "#line 0"; "// Octree"; "// IntersectionUtils";
       "// Megatexture"; "// IntersectClippingPlanes"; "// IntersectDepth";
       "void main() {}"].
Proof.
  destruct (@unknown_shape_build_completes sampleShaders
              (samplePrimitive "SPHERE" (planes true 3 false) true))
    as (primitive' & resources & Hreturns & Hlines & _); [done..|].
  exists primitive', resources. split; [exact Hreturns | exact Hlines].
Defined.

(** C5 at the sample box. *)
Lemma shape_fragments_in_order_witness :
  ∃ primitive' resources,
    @VoxelRenderResources sampleShaders (samplePrimitive "BOX" None false)
    = Returns (primitive', resources) ∧
    appearsBefore "// convertUvToBox" "// IntersectBox" (fragmentLines resources).
Proof.
  destruct (@shape_fragments_in_order sampleShaders (samplePrimitive "BOX" None false))
    as (primitive' & resources & Hreturns & Hbox & _).
  exists primitive', resources. split; [exact Hreturns | exact (Hbox eq_refl)].
Defined.

(** C6 as stated fails: the shape of the sample defines [JITTER] itself, so
    the define is there although the primitive's jitter flag is off. *)
Lemma shape_define_named_JITTER :
  VoxelPrimitive._jitter sampleJitterShape = false ∧
  ∃ primitive' resources,
    @VoxelRenderResources sampleShaders sampleJitterShape
    = Returns (primitive', resources) ∧
    "JITTER" ∈ definedNames resources.
Proof.
  split; [reflexivity|].
  eexists _, _. split; [apply VoxelRenderResources_returns|].
  compute_done.
Qed.

Lemma feature_defines_follow_configuration_witness :
  ∃ primitive' resources,
    @VoxelRenderResources sampleShaders
      (samplePrimitive "BOX" (planes false 5 true) true)
    = Returns (primitive', resources) ∧
    "DEPTH_TEST" ∈ definedNames resources ∧
    "DEPTH_INTERSECTION_INDEX" ∈ definedNames resources ∧
    ("CLIPPING_PLANES" ∉ definedNames resources) ∧
    ("JITTER" ∉ definedNames resources) ∧
    ("// IntersectClippingPlanes" ∉ fragmentLines resources).
Proof.
  destruct (@feature_defines_follow_configuration sampleShaders
              (samplePrimitive "BOX" (planes false 5 true) true))
    as (primitive' & resources & Hreturns & _ & Hjitter & _ & _ & Hdepth & _
        & Hindex & Hclipping & Hfragment & _).
  - apply sampleShape_avoids_feature_names.
  - apply not_elem_of_cons. split; [done|]. apply sample_texts_differ. by left.
  - apply not_elem_of_cons. split; [done|]. apply sample_texts_differ. by right.
  - exists primitive', resources. split; [exact Hreturns|].
    split; [by apply Hdepth|]. split; [by apply Hindex|].
    assert (¬ clippingEnabled (samplePrimitive "BOX" (planes false 5 true) true))
      as Hdisabled.
    { by intros (? & [= <-] & ? & _). }
    split; [by rewrite Hclipping|]. split; [by rewrite Hjitter|].
    intros Hin. apply Hdisabled. by apply Hfragment.
Defined.

(** C10 at a collaborator that is switched off and reports five planes. *)
Lemma disabled_clipping_is_no_clipping_witness :
  ∃ primitive' resources,
    @VoxelRenderResources sampleShaders
      (samplePrimitive "BOX" (planes false 5 true) true)
    = Returns (primitive', resources) ∧
    RenderResources.clippingPlanesLength resources = 0 ∧
    fragmentDefines resources
    = [("DEPTH_TEST", None); ("SHAPE_BOX", None);
       ("BOX_INTERSECTION_INDEX", Some (JsNumber 0));
       ("BOX_HAS_RENDER_BOUNDS", None);
       ("DEPTH_INTERSECTION_INDEX", Some (JsNumber 1));
       ("INTERSECTION_COUNT", Some (JsNumber 2));
       ("SAMPLE_COUNT", Some (JsString "64"))].
Proof.
  destruct (@disabled_clipping_is_no_clipping sampleShaders
              (samplePrimitive "BOX" (planes false 5 true) true))
    as (primitive' & resources & Hreturns & Hlength & Hdefines & _).
  - by intros ? [= <-].
  - exists primitive', resources.
    split; [exact Hreturns|]. split; [exact Hlength | exact Hdefines].
Defined.

(** ** Further properties of the build *)

Section Further.
Context `{VoxelShaders}.

Lemma flat_map_singleton {A B} (f : A → B) (l : list A) :
  flat_map (λ a, [f a]) l = f <$> l.
Proof. induction l as [|a l IH]; [done|]. cbn. by rewrite IH. Qed.

Lemma sublist_if {A} (condition : bool) (l : list A) :
  (if condition then l else []) `sublist_of` l.
Proof. destruct condition; [done | apply sublist_nil_l]. Qed.

(** X1: the vertex stage receives the voxel vertex shader and nothing else:
    no uniform and no define is addressed to it. *)
Theorem vertex_stage_holds_the_vertex_shader_only (primitive : VoxelPrimitive.t) :
  ∃ primitive' resources,
    VoxelRenderResources primitive = Returns (primitive', resources) ∧
    vertex (RenderResources.shaderBuilder resources)
    = {| uniforms := []; defines := []; lines := [VoxelVS] |}.
Proof.
  eexists _, _. split; [apply VoxelRenderResources_returns | reflexivity].
Qed.

(** X2: every uniform the custom shader declares is declared in the
    fragment stage under its own name and with its declared type, in the
    order the custom shader lists them, and before the megatexture
    uniform; nothing else is declared. *)
Theorem custom_uniforms_declared_in_order (primitive : VoxelPrimitive.t) :
  ∃ primitive' resources,
    VoxelRenderResources primitive = Returns (primitive', resources) ∧
    fragmentUniforms resources
    = ((λ declared : string * Uniform.t, (Uniform.type declared.2, declared.1))
         <$> CustomShader.uniforms (VoxelPrimitive._customShader primitive))
      ++ [("sampler2D", megatextureUniformName)].
Proof.
  eexists _, _. split; [apply VoxelRenderResources_returns|].
  unfold fragmentUniforms. cbn. unfold uniformDeclarations.
  by rewrite (flat_map_singleton
                (λ declared : string * Uniform.t,
                   (Uniform.type declared.2, declared.1))).
Qed.


(** X4: the fragments of a recognised shape are the last three before the
    voxel fragment shader, and the generic intersection fragment comes
    directly after the intersection test of the shape: after the UV
    conversion and the test for BOX, between the test and the UV
    conversion for CYLINDER and ELLIPSOID. *)
Theorem shape_fragments_close_the_source (primitive : VoxelPrimitive.t) :
  ∃ primitive' resources,
    VoxelRenderResources primitive = Returns (primitive', resources) ∧
    let shapeType := VoxelProvider.shape (VoxelPrimitive._provider primitive) in
    (shapeType = "BOX" →
     ∃ pre, fragmentLines resources
            = pre ++ [convertUvToBox; IntersectBox; Intersection; VoxelFS]) ∧
    (shapeType = "CYLINDER" →
     ∃ pre, fragmentLines resources
            = pre ++ [IntersectCylinder; Intersection; convertUvToCylinder; VoxelFS]) ∧
    (shapeType = "ELLIPSOID" →
     ∃ pre, fragmentLines resources
            = pre ++ [IntersectEllipsoid; Intersection; convertUvToEllipsoid; VoxelFS]).
Proof.
  eexists _, _. split; [apply VoxelRenderResources_returns|].
  unfold fragmentLines.
  cbn [RenderResources.shaderBuilder assembled fragment lines].
  unfold assembledLines.
  rewrite (assoc_L (++) (baseLines _)), (assoc_L (++) (_ ++ clippingPlanesLines _)).
  set (pre := (baseLines _ ++ _) ++ _).
  repeat split; intros ->; by exists pre.
Qed.



Lemma clippingPlanesDefines_names clippingPlanes :
  (clippingPlanesDefines clippingPlanes).*1
  `sublist_of` ["CLIPPING_PLANES"; "CLIPPING_PLANES_COUNT"; "CLIPPING_PLANES_UNION"].
Proof.
  unfold clippingPlanesDefines. cbn zeta.
  destruct (0 <? getClippingPlanesLength clippingPlanes),
    (unionRegions clippingPlanes); cbn; repeat constructor.
Qed.

Lemma intersectionDefines_names count clippingPlanes depthTest :
  (intersectionDefines count clippingPlanes depthTest).*1
  `sublist_of` ["CLIPPING_PLANES_INTERSECTION_INDEX"; "DEPTH_INTERSECTION_INDEX";
                "INTERSECTION_COUNT"].
Proof.
  unfold intersectionDefines.
  destruct (0 <? getClippingPlanesLength clippingPlanes), depthTest;
    cbn; repeat constructor.
Qed.

Lemma additionalDefines_names primitive :
  (additionalDefines primitive).*1
  `sublist_of` ["PADDING"; "LOG_DEPTH_READ_ONLY"; "JITTER"; "NEAREST_SAMPLING";
                "SAMPLE_COUNT"].
Proof.
  unfold additionalDefines.
  destruct (hasPadding primitive), (VoxelPrimitive._useLogDepth primitive),
    (VoxelPrimitive._jitter primitive), (VoxelPrimitive._nearestSampling primitive);
    cbn; repeat constructor.
Qed.

Lemma shapeDefines_names_sublist shape :
  (shapeDefines shape).*1 `sublist_of` (VoxelShape.shaderDefines shape).*1.
Proof.
  unfold shapeDefines.
  induction (VoxelShape.shaderDefines shape) as [|[key value] rest IH]; [done|].
  cbn. rewrite fmap_app.
  destruct value as [|[|]| |]; cbn;
    first [by apply sublist_cons | by apply sublist_skip].
Qed.

(** The names the constructor defines on its own account, left and right of
    the shape's defines, are among [constructorDefineNames], each once. *)
Lemma own_defines_names primitive :
  let clippingPlanes := VoxelPrimitive._clippingPlanes primitive in
  let depthTest := VoxelPrimitive._depthTest primitive in
  ((clippingPlanesDefines clippingPlanes
    ++ depthTestDefines depthTest
    ++ shapeTypeDefines (VoxelProvider.shape (VoxelPrimitive._provider primitive))).*1
   ++ (intersectionDefines
         (VoxelShape.shaderMaximumIntersectionsLength (VoxelPrimitive._shape primitive))
         clippingPlanes depthTest
       ++ additionalDefines primitive).*1)
  `sublist_of` constructorDefineNames.
Proof.
  cbn zeta. rewrite !fmap_app, <- !app_assoc.
  change constructorDefineNames
    with (["CLIPPING_PLANES"; "CLIPPING_PLANES_COUNT"; "CLIPPING_PLANES_UNION"]
          ++ ["DEPTH_TEST"] ++ ["SHAPE_BOX"]
          ++ ["CLIPPING_PLANES_INTERSECTION_INDEX"; "DEPTH_INTERSECTION_INDEX";
              "INTERSECTION_COUNT"]
          ++ ["PADDING"; "LOG_DEPTH_READ_ONLY"; "JITTER"; "NEAREST_SAMPLING";
              "SAMPLE_COUNT"]).
  apply sublist_app; [apply clippingPlanesDefines_names|].
  apply sublist_app.
  { unfold depthTestDefines. destruct (VoxelPrimitive._depthTest primitive);
      cbn; repeat constructor. }
  apply sublist_app.
  { unfold shapeTypeDefines. destruct (String.eqb _ _); cbn; repeat constructor. }
  apply sublist_app;
    [apply intersectionDefines_names | apply additionalDefines_names].
Qed.

(** X7: no name is defined twice. When the shape's define mapping has
    distinct keys (as the properties of an object have) and none of its
    present entries carries a name that the constructor defines itself, the
    names defined in the fragment stage are pairwise distinct. *)
Theorem no_name_defined_twice (primitive : VoxelPrimitive.t) :
  let shaderDefines := VoxelShape.shaderDefines (VoxelPrimitive._shape primitive) in
  NoDup shaderDefines.*1 →
  (∀ key value, (key, value) ∈ shaderDefines → value ≠ JsUndefined →
                key ∉ constructorDefineNames) →
  ∃ primitive' resources,
    VoxelRenderResources primitive = Returns (primitive', resources) ∧
    NoDup (definedNames resources).
Proof.
  intros shaderDefines Hkeys Hfree.
  eexists _, _. split; [apply VoxelRenderResources_returns|].
  unfold definedNames, fragmentDefines.
  cbn [RenderResources.shaderBuilder assembled fragment defines].
  pose proof (own_defines_names primitive) as Hown. cbn zeta in Hown.
  unfold assembledDefines. cbn zeta.
  set (left := clippingPlanesDefines _ ++ depthTestDefines _ ++ shapeTypeDefines _)
    in Hown.
  set (right := intersectionDefines _ _ _ ++ additionalDefines _) in Hown.
  assert (clippingPlanesDefines (VoxelPrimitive._clippingPlanes primitive)
          ++ depthTestDefines (VoxelPrimitive._depthTest primitive)
          ++ shapeTypeDefines (VoxelProvider.shape (VoxelPrimitive._provider primitive))
          ++ shapeDefines (VoxelPrimitive._shape primitive)
          ++ intersectionDefines
               (VoxelShape.shaderMaximumIntersectionsLength
                  (VoxelPrimitive._shape primitive))
               (VoxelPrimitive._clippingPlanes primitive)
               (VoxelPrimitive._depthTest primitive)
          ++ additionalDefines primitive
          = left ++ shapeDefines (VoxelPrimitive._shape primitive) ++ right) as ->.
  { unfold left, right. by rewrite <- !app_assoc. }
  rewrite !fmap_app.
  assert (left.*1 ++ (shapeDefines (VoxelPrimitive._shape primitive)).*1 ++ right.*1
          ≡ₚ (shapeDefines (VoxelPrimitive._shape primitive)).*1
             ++ (left.*1 ++ right.*1)) as ->.
  { by rewrite !(assoc_L (++)), (comm (++) left.*1). }
  apply NoDup_app. split; [|split].
  - eapply sublist_NoDup; [exact Hkeys | apply shapeDefines_names_sublist].
  - intros name [value [Hin Hvalue]]%elem_of_shapeDefines_names Hown'.
    apply (Hfree name value Hin Hvalue).
    by eapply elem_of_sublist.
  - eapply sublist_NoDup; [|exact Hown]. compute_done.
Qed.

(** X8: SHAPE_BOX is the only define the choice of the shape brings, and it
    is brought by BOX alone: unless the shape's own mapping defines that
    name, SHAPE_BOX is defined iff the provider's shape is BOX. *)
Theorem SHAPE_BOX_marks_the_box (primitive : VoxelPrimitive.t) :
  (∀ value,
     ("SHAPE_BOX", value) ∈ VoxelShape.shaderDefines (VoxelPrimitive._shape primitive) →
     value = JsUndefined) →
  ∃ primitive' resources,
    VoxelRenderResources primitive = Returns (primitive', resources) ∧
    ("SHAPE_BOX" ∈ definedNames resources ↔
     VoxelProvider.shape (VoxelPrimitive._provider primitive) = "BOX").
Proof.
  intros Hfree.
  eexists _, _. split; [apply VoxelRenderResources_returns|].
  unfold definedNames, fragmentDefines.
  cbn [RenderResources.shaderBuilder assembled fragment defines].
  rewrite elem_of_assembled_names. split.
  - intros Hin. decompose [or and ex] Hin; clear Hin;
      first [done | discriminate | exfalso; by eauto].
  - intros ->. tauto.
Qed.

(** X9: the custom shader reaches the program through its text, its
    uniforms and its uniform map only. Building with another custom shader
    leaves the vertex stage, the defines and the reported plane count as
    they are, and the fragment source too, except for its first line, which
    is the text of the custom shader in use. *)
Theorem custom_shader_changes_the_first_line_only (primitive : VoxelPrimitive.t)
    (customShader : CustomShader.t) :
  ∃ primitive1 resources1 primitive2 resources2,
    VoxelRenderResources primitive = Returns (primitive1, resources1) ∧
    VoxelRenderResources (withCustomShader customShader primitive)
    = Returns (primitive2, resources2) ∧
    vertex (RenderResources.shaderBuilder resources2)
    = vertex (RenderResources.shaderBuilder resources1) ∧
    fragmentDefines resources2 = fragmentDefines resources1 ∧
    RenderResources.clippingPlanesLength resources2
    = RenderResources.clippingPlanesLength resources1 ∧
    fragmentLines resources2 !! 0%nat
    = Some (CustomShader.fragmentShaderText customShader) ∧
    drop 1 (fragmentLines resources2) = drop 1 (fragmentLines resources1).
Proof.
  eexists _, _, _, _.
  split; [apply VoxelRenderResources_returns|].
  split; [apply VoxelRenderResources_returns|].
  repeat split.
Qed.

(** X10: no uniform is declared twice. When the custom shader's uniforms
    have distinct names (as the properties of an object have) and none of
    them is named like the megatexture uniform, the names declared in the
    fragment stage are pairwise distinct. *)
Theorem no_uniform_declared_twice (primitive : VoxelPrimitive.t) :
  let declared := CustomShader.uniforms (VoxelPrimitive._customShader primitive) in
  NoDup declared.*1 →
  megatextureUniformName ∉ declared.*1 →
  ∃ primitive' resources,
    VoxelRenderResources primitive = Returns (primitive', resources) ∧
    NoDup (uniformNames resources).
Proof.
  intros declared Hnames Hfresh.
  eexists _, _. split; [apply VoxelRenderResources_returns|].
  unfold uniformNames, fragmentUniforms.
  cbn [RenderResources.shaderBuilder assembled fragment uniforms].
  unfold uniformDeclarations. fold declared.
  rewrite fmap_app. cbn.
  assert ((flat_map (λ p : string * Uniform.t, [(Uniform.type p.2, p.1)]) declared).*2
          = declared.*1) as ->.
  { clear. induction declared as [|[name uniform] rest IH]; [done|].
    cbn. by rewrite IH. }
  apply NoDup_app. split; [done|]. split.
  - intros name Hin ->%list_elem_of_singleton. by apply Hfresh.
  - apply NoDup_singleton.
Qed.


(** X12: what switching the depth test on adds. Next to the build of the
    same primitive without the depth test, the build with it has one more
    fragment, the depth fragment, standing between the base and clipping
    fragments and the fragments of the shape; the define DEPTH_TEST
    directly after the clipping defines; the define
    DEPTH_INTERSECTION_INDEX, carrying the count of the build without,
    directly before INTERSECTION_COUNT; and an INTERSECTION_COUNT that is
    one higher, still directly before the additional defines. Every other
    line, define and uniform, the vertex stage and the uniform map are the
    same. *)
Theorem depth_test_adds_its_parts_only (primitive : VoxelPrimitive.t) :
  VoxelPrimitive._depthTest primitive = false →
  ∃ primitive1 without primitive2 with_ defines2 total,
    VoxelRenderResources primitive = Returns (primitive1, without) ∧
    VoxelRenderResources (withDepthTest true primitive)
    = Returns (primitive2, with_) ∧
    let planes := VoxelPrimitive._clippingPlanes primitive in
    let lines1 :=
      baseLines (VoxelPrimitive._customShader primitive)
      ++ clippingPlanesLines planes in
    let lines2 :=
      shapeLines (VoxelProvider.shape (VoxelPrimitive._provider primitive))
      ++ [VoxelFS] in
    let defines1 := clippingPlanesDefines planes in
    let defines3 := additionalDefines primitive in
    fragmentLines without = lines1 ++ lines2 ∧
    fragmentLines with_ = lines1 ++ [IntersectDepth] ++ lines2 ∧
    fragmentDefines without
    = defines1 ++ defines2
      ++ [("INTERSECTION_COUNT", Some (JsNumber total))] ++ defines3 ∧
    fragmentDefines with_
    = defines1 ++ [("DEPTH_TEST", None)] ++ defines2
      ++ [("DEPTH_INTERSECTION_INDEX", Some (JsNumber total));
          ("INTERSECTION_COUNT", Some (JsNumber (total + 1)))]
      ++ defines3 ∧
    fragmentUniforms with_ = fragmentUniforms without ∧
    vertex (RenderResources.shaderBuilder with_)
    = vertex (RenderResources.shaderBuilder without) ∧
    RenderResources.uniformMap with_ = RenderResources.uniformMap without.
Proof.
  intros Hoff.
  set (planes := VoxelPrimitive._clippingPlanes primitive).
  set (shape := VoxelPrimitive._shape primitive).
  set (M := VoxelShape.shaderMaximumIntersectionsLength shape).
  eexists _, _, _, _,
    (shapeTypeDefines (VoxelProvider.shape (VoxelPrimitive._provider primitive))
     ++ shapeDefines shape
     ++ (if 0 <? getClippingPlanesLength planes
         then [("CLIPPING_PLANES_INTERSECTION_INDEX", Some (JsNumber M))] else [])),
    (countAfterClipping M planes).
  split; [apply VoxelRenderResources_returns|].
  split; [apply VoxelRenderResources_returns|].
  cbn zeta.
  unfold fragmentLines, fragmentDefines, fragmentUniforms.
  cbn [RenderResources.shaderBuilder RenderResources.uniformMap assembled
       fragment vertex defines lines uniforms].
  unfold assembledLines, assembledDefines, intersectionDefines, countAfterDepth.
  cbn [withDepthTest VoxelPrimitive._depthTest VoxelPrimitive._clippingPlanes
       VoxelPrimitive._shape VoxelPrimitive._provider VoxelPrimitive._customShader
       VoxelPrimitive._uniformMap].
  fold planes shape M. rewrite Hoff.
  cbn [depthTestDefines depthTestLines app].
  rewrite <- !app_assoc. cbn [app].
  repeat split.
Qed.

End Further.

(** ** The further properties at the sample configurations *)

Lemma sampleShape_avoids_constructor_names (key : string) (value : JsValue) :
  (key, value) ∈ VoxelShape.shaderDefines (sampleShape 1) →
  value ≠ JsUndefined → key ∉ constructorDefineNames.
Proof.
  cbn. rewrite !elem_of_cons, elem_of_nil.
  intros [[= -> ->] | [[= -> ->] | [[= -> ->] | []]]] Hvalue;
    [| |done]; compute_done.
Qed.


(** X7 at the sample box with clipping and depth test. *)
Lemma no_name_defined_twice_witness :
  ∃ primitive' resources,
    @VoxelRenderResources sampleShaders
      (samplePrimitive "BOX" (planes true 3 true) true)
    = Returns (primitive', resources) ∧
    NoDup (definedNames resources).
Proof.
  apply (@no_name_defined_twice sampleShaders
           (samplePrimitive "BOX" (planes true 3 true) true)).
  - compute_done.
  - apply sampleShape_avoids_constructor_names.
Defined.

(** X8 at the sample box. *)
Lemma SHAPE_BOX_marks_the_box_witness :
  ∃ primitive' resources,
    @VoxelRenderResources sampleShaders (samplePrimitive "BOX" None false)
    = Returns (primitive', resources) ∧
    "SHAPE_BOX" ∈ definedNames resources.
Proof.
  destruct (@SHAPE_BOX_marks_the_box sampleShaders (samplePrimitive "BOX" None false))
    as (primitive' & resources & Hreturns & Hbox).
  - intros value. cbn. rewrite !elem_of_cons, elem_of_nil.
    by intros [[=] | [[=] | [[=] | []]]].
  - exists primitive', resources. split; [exact Hreturns | by apply Hbox].
Defined.

(** X10 at the sample custom shader. *)
Lemma no_uniform_declared_twice_witness :
  ∃ primitive' resources,
    @VoxelRenderResources sampleShaders (samplePrimitive "BOX" None false)
    = Returns (primitive', resources) ∧
    NoDup (uniformNames resources).
Proof.
  apply (@no_uniform_declared_twice sampleShaders (samplePrimitive "BOX" None false));
    compute_done.
Defined.

(** X12 at the sample box with one clipping plane. *)
Lemma depth_test_adds_its_parts_only_witness :
  ∃ primitive1 without primitive2 with_,
    @VoxelRenderResources sampleShaders
      (samplePrimitive "BOX" (planes true 1 false) false)
    = Returns (primitive1, without) ∧
    @VoxelRenderResources sampleShaders
      (withDepthTest true (samplePrimitive "BOX" (planes true 1 false) false))
    = Returns (primitive2, with_) ∧
    fragmentLines with_ !! 6%nat = Some "// IntersectDepth" ∧
    length (fragmentLines with_) = S (length (fragmentLines without)) ∧
    length (fragmentDefines with_) = S (S (length (fragmentDefines without))).
Proof.
  destruct (@depth_test_adds_its_parts_only sampleShaders
              (samplePrimitive "BOX" (planes true 1 false) false) eq_refl)
    as (primitive1 & without & primitive2 & with_ & defines2 & total
        & Hwithout & Hwith & Hlines & Hlines' & Hdefines & Hdefines' & _).
  exists primitive1, without, primitive2, with_.
  split; [exact Hwithout|]. split; [exact Hwith|].
  rewrite Hlines, Hlines', Hdefines, Hdefines'.
  split; [reflexivity|].
  rewrite !length_app. cbn. split; lia.
Defined.
